(** * EasyIR: code resolution and transmission

    A shallow embedding of the two device entities of the [easy_ir]
    integration ([climate.py], [media_player.py]) and the properties of
    their code resolvers and transmitters.

    Python values read from the device JSON file are modelled by [json];
    the dynamically typed operations the entities apply to them ([in],
    subscripting, [.get], [.keys], [len], iteration, truthiness) are total
    functions that return the Python exception they raise.  Entity
    methods live in a state-and-exception monad that also records what
    is observable from outside: log records, outbound service calls and
    state publications. *)

From Stdlib Require Import String Ascii List ZArith QArith Bool.
From Stdlib Require Import DecimalString.
From Stdlib Require Import Lia Permutation Sorted.
Import ListNotations.

Set Warnings "-register-all".

Local Open Scope list_scope.
Local Open Scope string_scope.

(** ** Python values and primitive operations *)

Module Py.

(** What [json.load] produces.  A JSON object becomes a [dict], which
    keeps its keys in insertion order: an association list, read by its
    first binding for a key. *)
Inductive json : Type :=
| JNull
| JBool (b : bool)
| JNum (q : Q)
| JStr (s : string)
| JList (l : list json)
| JDict (d : list (string * json)).

Definition dict : Type := list (string * json).

Inductive exn : Type :=
| KeyError
| IndexError
| TypeError
| AttributeError
| ServiceFault.

Definition result (A : Type) : Type := (exn + A)%type.

Fixpoint dict_lookup (k : string) (d : dict) : option json :=
  match d with
  | [] => None
  | (k', v) :: d' => if String.eqb k k' then Some v else dict_lookup k d'
  end.

(** [bool(v)] *)
Definition truthy (v : json) : bool :=
  match v with
  | JNull => false
  | JBool b => b
  | JNum q => negb (Z.eqb (Qnum q) 0)
  | JStr s => negb (String.eqb s EmptyString)
  | JList l => match l with [] => false | _ :: _ => true end
  | JDict d => match d with [] => false | _ :: _ => true end
  end.

(** [o.get(k, default)]; only a dict has the method. *)
Definition py_get (o : json) (k : string) (default : json) : result json :=
  match o with
  | JDict d =>
      inr (match dict_lookup k d with Some v => v | None => default end)
  | _ => inl AttributeError
  end.

(** [o[k]] for a key that is a string or [None]. *)
Definition py_getitem (o : json) (k : option string) : result json :=
  match o with
  | JDict d =>
      match k with
      | Some s =>
          match dict_lookup s d with
          | Some v => inr v
          | None => inl KeyError
          end
      | None => inl KeyError
      end
  | _ => inl TypeError
  end.

(** [x == k] for a key that is a string or [None]. *)
Definition key_eqb (k : option string) (x : json) : bool :=
  match k, x with
  | Some s, JStr s' => String.eqb s s'
  | None, JNull => true
  | _, _ => false
  end.

Definition is_substring (s t : string) : bool :=
  match String.index 0 s t with Some _ => true | None => false end.

(** [k in o] for a key that is a string or [None]. *)
Definition py_contains (k : option string) (o : json) : result bool :=
  match o with
  | JDict d =>
      inr (match k with
           | Some s =>
               match dict_lookup s d with Some _ => true | None => false end
           | None => false
           end)
  | JList l => inr (existsb (key_eqb k) l)
  | JStr t =>
      match k with
      | Some s => inr (is_substring s t)
      | None => inl TypeError
      end
  | _ => inl TypeError
  end.

(** [list(o.keys())] *)
Definition py_keys (o : json) : result (list string) :=
  match o with
  | JDict d => inr (map fst d)
  | _ => inl AttributeError
  end.

(** [l[0]] *)
Definition py_index0 {A : Type} (l : list A) : result A :=
  match l with
  | [] => inl IndexError
  | x :: _ => inr x
  end.

(** [len(o)] *)
Definition py_len (o : json) : result nat :=
  match o with
  | JStr s => inr (String.length s)
  | JList l => inr (List.length l)
  | JDict d => inr (List.length d)
  | _ => inl TypeError
  end.

Fixpoint chars (s : string) : list json :=
  match s with
  | EmptyString => []
  | String c s' => JStr (String c EmptyString) :: chars s'
  end.

(** The items a [for c in o] loop visits. *)
Definition py_iter (o : json) : result (list json) :=
  match o with
  | JList l => inr l
  | JStr s => inr (chars s)
  | JDict d => inr (map (fun kv => JStr (fst kv)) d)
  | _ => inl TypeError
  end.

Definition isinstance_str (o : json) : bool :=
  match o with JStr _ => true | _ => false end.

(** [int(x)] on a finite number truncates towards zero. *)
Definition py_int (x : Q) : Z := Z.quot (Qnum x) (Zpos (Qden x)).

(** [str(n)] for an integer. *)
Definition str_of_int (n : Z) : string := NilZero.string_of_int (Z.to_int n).

Definition str_of_nat (n : nat) : string := str_of_int (Z.of_nat n).

(** [str(o)] inside an f-string, for a string or [None]. *)
Definition str_of_optional (o : option string) : string :=
  match o with Some s => s | None => "None" end.

End Py.
Import Py.

(** ** Effects *)

Module Eff.

Inductive level : Type := DEBUG | INFO | WARNING | ERROR.

(** The [service_data] argument of [remote.send_command]. *)
Record ServiceData : Type := mkServiceData {
  entity_id : option string;
  command : list json
}.

Inductive event : Type :=
| Log (lvl : level) (msg : string)
| ServiceCall (domain service : string) (data : ServiceData)
| WriteHAState.

(** The host: its service registry answers a call or faults. *)
Record HomeAssistant : Type := mkHass {
  services_async_call : string -> string -> ServiceData -> option exn
}.

Section Monad.
Context {S : Type}.

(** A run ends normally or with an exception; the entity's fields and
    what was emitted so far survive either way. *)
Record Res (A : Type) : Type := mkRes {
  outcome : result A;
  final : S;
  trace : list event
}.
Arguments mkRes {A}.
Arguments outcome {A}.
Arguments final {A}.
Arguments trace {A}.

Definition M (A : Type) : Type := S -> Res A.

Definition ret {A} (x : A) : M A := fun s => mkRes (inr x) s [].

Definition raise {A} (e : exn) : M A := fun s => mkRes (inl e) s [].

Definition bind {A B} (m : M A) (k : A -> M B) : M B :=
  fun s =>
    let r := m s in
    match outcome r with
    | inl e => mkRes (inl e) (final r) (trace r)
    | inr x =>
        let r' := k x (final r) in
        mkRes (outcome r') (final r') (trace r ++ trace r')
    end.

Definition get : M S := fun s => mkRes (inr s) s [].

Definition put (s' : S) : M unit := fun _ => mkRes (inr tt) s' [].

Definition lift {A} (r : result A) : M A :=
  match r with
  | inl e => raise e
  | inr x => ret x
  end.

Definition emit (e : event) : M unit := fun s => mkRes (inr tt) s [e].

Definition log (lvl : level) (msg : string) : M unit := emit (Log lvl msg).

(** [await hass.services.async_call(domain, service, data)] *)
Definition async_call (hass : HomeAssistant)
    (domain service : string) (data : ServiceData) : M unit :=
  bind (emit (ServiceCall domain service data)) (fun _ =>
    match services_async_call hass domain service data with
    | Some e => raise e
    | None => ret tt
    end).

Definition async_write_ha_state : M unit := emit WriteHAState.

(** [m] never changes the entity's fields, whether it returns or raises. *)
Definition preserves {A} (m : M A) : Prop := forall s, final (m s) = s.

End Monad.

Arguments Res : clear implicits.
Arguments M : clear implicits.
Arguments mkRes {S A}.
Arguments outcome {S A}.
Arguments final {S A}.
Arguments trace {S A}.

(** The payloads handed to the outbound send-command capability. *)
Fixpoint transmissions (tr : list event) : list ServiceData :=
  match tr with
  | [] => []
  | ServiceCall _ _ data :: tr' => data :: transmissions tr'
  | _ :: tr' => transmissions tr'
  end.

Fixpoint logged (lvl : level) (tr : list event) : list string :=
  match tr with
  | [] => []
  | Log l msg :: tr' =>
      match l, lvl with
      | DEBUG, DEBUG | INFO, INFO | WARNING, WARNING | ERROR, ERROR =>
          msg :: logged lvl tr'
      | _, _ => logged lvl tr'
      end
  | _ :: tr' => logged lvl tr'
  end.

Declare Scope eff_scope.
Delimit Scope eff_scope with eff.
Notation "x <- m ;; k" := (bind m (fun x => k))
  (at level 61, m at next level, right associativity) : eff_scope.
Notation "m ;; k" := (bind m (fun _ => k))
  (at level 61, right associativity) : eff_scope.

End Eff.
Import Eff.
Local Open Scope eff_scope.

(** ** The transmitter's normalisation, shared by both entities

    Both [_send_command] (climate) and [_send_raw_code] (media player)
    run the same loop over the code items. *)

Definition B64_PREFIX : string := "b64:".

(** One iteration of the loop: what is appended to [final_commands]. *)
Definition final_command (c : json) : json :=
  match c with
  | JStr s =>
      if negb (String.prefix B64_PREFIX s) then JStr (B64_PREFIX ++ s) else c
  | _ => c
  end.

(** [final_commands = []; for c in code: final_commands.append(...)] *)
Definition final_commands_of (items : list json) : list json :=
  fold_left (fun acc c => (acc ++ [final_command c])%list) items [].

(** ** [climate.py] *)

Module Climate.

(** [homeassistant.components.climate.HVACMode] *)
Inductive HVACMode : Type :=
| OFF | HEAT | COOL | HEAT_COOL | AUTO | DRY | FAN_ONLY.

Definition HVACMode_eqb (a b : HVACMode) : bool :=
  match a, b with
  | OFF, OFF | HEAT, HEAT | COOL, COOL | HEAT_COOL, HEAT_COOL
  | AUTO, AUTO | DRY, DRY | FAN_ONLY, FAN_ONLY => true
  | _, _ => false
  end.

(** Map JSON strings to Home Assistant constants. *)
Definition HVAC_MODES_MAP : list (string * HVACMode) :=
  [ ("off", OFF);
    ("cool", COOL);
    ("heat", HEAT);
    ("auto", AUTO);
    ("dry", DRY);
    ("fan", FAN_ONLY);
    ("fan_only", FAN_ONLY) ].

(** [d[k] = v] on a dict keyed by modes: an existing key keeps its place
    and takes the new value. *)
Fixpoint mode_dict_set (d : list (HVACMode * string)) (k : HVACMode)
    (v : string) : list (HVACMode * string) :=
  match d with
  | [] => [(k, v)]
  | (k', v') :: d' =>
      if HVACMode_eqb k k' then (k', v) :: d'
      else (k', v') :: mode_dict_set d' k v
  end.

(** [{v: k for k, v in HVAC_MODES_MAP.items()}] *)
Definition HVAC_MODES_INV_MAP : list (HVACMode * string) :=
  fold_left (fun acc kv => mode_dict_set acc (snd kv) (fst kv))
    HVAC_MODES_MAP [].

(** [HVAC_MODES_INV_MAP.get(mode)] *)
Fixpoint mode_dict_get (d : list (HVACMode * string)) (k : HVACMode)
    : option string :=
  match d with
  | [] => None
  | (k', v) :: d' => if HVACMode_eqb k k' then Some v else mode_dict_get d' k
  end.

(** The fields of an [EasyIRClimate] the send path reads or writes.
    [_device_data] is a dict: [__init__] calls its [.get], so no entity
    exists for any other JSON value. *)
Record EasyIRClimate : Type := mkClimate {
  hass : HomeAssistant;
  _device_data : dict;
  _controller : option string;
  _attr_hvac_mode : HVACMode;
  _attr_target_temperature : Q;
  _attr_fan_mode : string
}.

Definition set_hvac_mode (self : EasyIRClimate) (m : HVACMode) :=
  mkClimate (hass self) (_device_data self) (_controller self)
    m (_attr_target_temperature self) (_attr_fan_mode self).

Definition set_target_temperature (self : EasyIRClimate) (t : Q) :=
  mkClimate (hass self) (_device_data self) (_controller self)
    (_attr_hvac_mode self) t (_attr_fan_mode self).

Definition set_fan_mode (self : EasyIRClimate) (f : string) :=
  mkClimate (hass self) (_device_data self) (_controller self)
    (_attr_hvac_mode self) (_attr_target_temperature self) f.

(** Call the [remote.send_command] service with the Broadlink fix. *)
Definition _send_command (code : json) : M EasyIRClimate unit :=
  self <- get ;;
  let code := if isinstance_str code then JList [code] else code in
  items <- lift (py_iter code) ;;
  let final_commands := final_commands_of items in
  log INFO ("EasyIR: Sending " ++ str_of_nat (List.length final_commands)
            ++ " command(s) to " ++ str_of_optional (_controller self)) ;;
  async_call (hass self) "remote" "send_command"
    {| entity_id := _controller self; command := final_commands |}.

(** Find the code and send it via [remote.send_command]. *)
Definition _async_send_ir : M EasyIRClimate unit :=
  self <- get ;;
  if HVACMode_eqb (_attr_hvac_mode self) OFF then
    cmds <- lift (py_getitem (JDict (_device_data self)) (Some "commands")) ;;
    command <- lift (py_get cmds "off" JNull) ;;
    if truthy command then
      n <- lift (py_len command) ;;
      log DEBUG ("EasyIR: Found OFF command. Length: " ++ str_of_nat n) ;;
      _send_command command
    else
      log ERROR "EasyIR: 'off' command not found in JSON!"
  else
    let mode_key := mode_dict_get HVAC_MODES_INV_MAP (_attr_hvac_mode self) in
    let fan_key := _attr_fan_mode self in
    let temp_key := str_of_int (py_int (_attr_target_temperature self)) in
    commands <- lift (py_get (JDict (_device_data self)) "commands" (JDict [])) ;;
    mode_present <- lift (py_contains mode_key commands) ;;
    if negb mode_present then
      log ERROR ("EasyIR: Mode '" ++ str_of_optional mode_key
                 ++ "' missing from JSON.")
    else
      by_fan <- lift (py_getitem commands mode_key) ;;
      fan_present <- lift (py_contains (Some fan_key) by_fan) ;;
      fan_key <-
        (if negb fan_present then
           by_fan <- lift (py_getitem commands mode_key) ;;
           available_fans <- lift (py_keys by_fan) ;;
           first_fan <- lift (py_index0 available_fans) ;;
           log WARNING ("EasyIR: Fan '" ++ fan_key
                        ++ "' missing. Retrying with '" ++ first_fan ++ "'") ;;
           first_fan <- lift (py_index0 available_fans) ;;
           ret first_fan
         else ret fan_key) ;;
      by_fan <- lift (py_getitem commands mode_key) ;;
      by_temp <- lift (py_getitem by_fan (Some fan_key)) ;;
      temp_present <- lift (py_contains (Some temp_key) by_temp) ;;
      if negb temp_present then
        log ERROR ("EasyIR: Temp '" ++ temp_key ++ "' missing from JSON.")
      else
        by_fan <- lift (py_getitem commands mode_key) ;;
        by_temp <- lift (py_getitem by_fan (Some fan_key)) ;;
        code <- lift (py_getitem by_temp (Some temp_key)) ;;
        if truthy code then _send_command code else ret tt.

(** Set new target hvac mode. *)
Definition async_set_hvac_mode (hvac_mode : HVACMode) : M EasyIRClimate unit :=
  self <- get ;;
  put (set_hvac_mode self hvac_mode) ;;
  _async_send_ir ;;
  async_write_ha_state.

(** Set new target temperature; [temp] is [kwargs.get(ATTR_TEMPERATURE)]. *)
Definition async_set_temperature (temp : option Q) : M EasyIRClimate unit :=
  match temp with
  | Some temp =>
      self <- get ;;
      put (set_target_temperature self temp) ;;
      _async_send_ir ;;
      async_write_ha_state
  | None => ret tt
  end.

(** Set new target fan mode. *)
Definition async_set_fan_mode (fan_mode : string) : M EasyIRClimate unit :=
  self <- get ;;
  put (set_fan_mode self fan_mode) ;;
  _async_send_ir ;;
  async_write_ha_state.

End Climate.

(** ** [media_player.py] *)

Module MediaPlayer.

(** [homeassistant.const.STATE_OFF], [STATE_ON] *)
Definition STATE_OFF : string := "off".
Definition STATE_ON : string := "on".

(** The fields of an [EasyIRMediaPlayer] the send path reads or writes.
    As for the climate entity, [__init__] already calls
    [device_data.get]. *)
Record EasyIRMediaPlayer : Type := mkMediaPlayer {
  hass : HomeAssistant;
  _device_data : dict;
  _controller : option string;
  _attr_state : string;
  _attr_source : option string
}.

Definition set_state (self : EasyIRMediaPlayer) (st : string) :=
  mkMediaPlayer (hass self) (_device_data self) (_controller self)
    st (_attr_source self).

Definition set_source (self : EasyIRMediaPlayer) (src : option string) :=
  mkMediaPlayer (hass self) (_device_data self) (_controller self)
    (_attr_state self) src.

(** Send the actual base64 code to the Broadlink entity. *)
Definition _send_raw_code (code : json) : M EasyIRMediaPlayer unit :=
  self <- get ;;
  let code := if isinstance_str code then JList [code] else code in
  items <- lift (py_iter code) ;;
  let final_commands := final_commands_of items in
  async_call (hass self) "remote" "send_command"
    {| entity_id := _controller self; command := final_commands |}.

(** Helper to find the code in the main dict and send it. *)
Definition _send_command (command_key : string) : M EasyIRMediaPlayer unit :=
  self <- get ;;
  commands <- lift (py_get (JDict (_device_data self)) "commands" (JDict [])) ;;
  code <- lift (py_get commands command_key JNull) ;;
  code <-
    (if negb (truthy code) && String.eqb command_key "on" then
       commands <- lift (py_get (JDict (_device_data self)) "commands" (JDict [])) ;;
       lift (py_get commands "power" JNull)
     else ret code) ;;
  if truthy code then
    _send_raw_code code
  else
    log WARNING ("EasyIR: Command '" ++ command_key
                 ++ "' not found in device JSON.").

(** Turn the media player on. *)
Definition async_turn_on : M EasyIRMediaPlayer unit :=
  _send_command "on" ;;
  self <- get ;;
  put (set_state self STATE_ON) ;;
  async_write_ha_state.

(** Turn the media player off. *)
Definition async_turn_off : M EasyIRMediaPlayer unit :=
  _send_command "off" ;;
  self <- get ;;
  put (set_state self STATE_OFF) ;;
  async_write_ha_state.

(** Select input source. *)
Definition async_select_source (source : string) : M EasyIRMediaPlayer unit :=
  self <- get ;;
  commands <- lift (py_get (JDict (_device_data self)) "commands" (JDict [])) ;;
  sources <- lift (py_get commands "sources" (JDict [])) ;;
  known <- lift (py_contains (Some source) sources) ;;
  if known then
    commands <- lift (py_getitem (JDict (_device_data self)) (Some "commands")) ;;
    sources <- lift (py_getitem commands (Some "sources")) ;;
    code <- lift (py_getitem sources (Some source)) ;;
    _send_raw_code code ;;
    self <- get ;;
    put (set_source self (Some source)) ;;
    async_write_ha_state
  else ret tt.

End MediaPlayer.

(** ** The rest of [climate.py]: construction and the sensor callback *)

Module ClimateEntity.
Import Climate.

(** Sequencing of operations that may raise, without effects. *)
Definition rbind {A B} (r : result A) (k : A -> result B) : result B :=
  match r with
  | inl e => inl e
  | inr x => k x
  end.

Notation "x <~ r ;; k" := (rbind r (fun x => k))
  (at level 61, r at next level, right associativity).

(** [homeassistant.components.climate.ClimateEntityFeature]; a value of
    the flag type is the list of the flags or-ed together. *)
Inductive ClimateEntityFeature : Type :=
| TARGET_TEMPERATURE | FAN_MODE | TURN_OFF | TURN_ON.

Inductive UnitOfTemperature : Type := CELSIUS.

(** The parts of a [ConfigEntry] the entity reads: [entry_id] and the
    keys of [entry.data] ([None] for a key that is absent or null). *)
Record ConfigEntry : Type := mkEntry {
  entry_id : string;
  data_name : option string;
  data_controller : option string;
  data_temperature_sensor : option string
}.

(** [{v: k for k, v in m.items()}] for a map [m] from mode names to
    modes; [HVAC_MODES_INV_MAP] is this for [HVAC_MODES_MAP]. *)
Definition inverse_of (m : list (string * HVACMode))
    : list (HVACMode * string) :=
  fold_left (fun acc kv => mode_dict_set acc (snd kv) (fst kv)) m [].

(** [HVAC_MODES_MAP.get(k)] *)
Fixpoint modes_map_get (d : list (string * HVACMode)) (k : string)
    : option HVACMode :=
  match d with
  | [] => None
  | (k', m) :: d' => if String.eqb k k' then Some m else modes_map_get d' k
  end.

(** [[HVAC_MODES_MAP[mode] for mode in items if mode in HVAC_MODES_MAP]]:
    a list or an object cannot be hashed for the membership test, any
    other value that is not a string is simply not a key. *)
Fixpoint hvac_modes_of (items : list json) : result (list HVACMode) :=
  match items with
  | [] => inr []
  | mode :: rest =>
      match mode with
      | JStr s =>
          match modes_map_get HVAC_MODES_MAP s with
          | Some m => modes <~ hvac_modes_of rest ;; inr (m :: modes)
          | None => hvac_modes_of rest
          end
      | JList _ | JDict _ => inl TypeError
      | _ => hvac_modes_of rest
      end
  end.

(** [HVACMode.OFF in modes] *)
Definition mode_in (m : HVACMode) (modes : list HVACMode) : bool :=
  existsb (HVACMode_eqb m) modes.

(** [o[0]] *)
Definition py_getitem0 (o : json) : result json :=
  match o with
  | JList l => py_index0 l
  | JStr s =>
      match s with
      | EmptyString => inl IndexError
      | String c _ => inr (JStr (String c EmptyString))
      end
  | JDict _ => inl KeyError
  | _ => inl TypeError
  end.

(** The attributes [__init__] sets. *)
Record ClimateAttrs : Type := mkClimateAttrs {
  attr_controller : option string;
  attr_name : string;
  attr_unique_id : string;
  attr_sensor_entity : option string;
  attr_min_temp : json;
  attr_max_temp : json;
  attr_target_temperature_step : json;
  attr_temperature_unit : UnitOfTemperature;
  attr_hvac_modes : list HVACMode;
  attr_fan_modes : option json;
  attr_supported_features : list ClimateEntityFeature;
  attr_hvac_mode : HVACMode;
  attr_target_temperature : Q;
  attr_fan_mode : json
}.

(** Initialize the climate device. *)
Definition __init__ (entry : ConfigEntry) (device_data : dict)
    : result ClimateAttrs :=
  let controller := data_controller entry in
  name <~ match data_name entry with
          | Some n => inr n
          | None => inl KeyError
          end ;;
  let unique_id := entry_id entry in
  let sensor_entity := data_temperature_sensor entry in
  min_temp <~ py_get (JDict device_data) "minTemperature" (JNum (16 # 1)) ;;
  max_temp <~ py_get (JDict device_data) "maxTemperature" (JNum (30 # 1)) ;;
  step <~ py_get (JDict device_data) "precision" (JNum (1 # 1)) ;;
  operation_modes <~ py_get (JDict device_data) "operationModes" (JList []) ;;
  items <~ py_iter operation_modes ;;
  hvac_modes <~ hvac_modes_of items ;;
  commands <~ py_get (JDict device_data) "commands" (JDict []) ;;
  has_off <~ py_contains (Some "off") commands ;;
  let hvac_modes :=
    if has_off && negb (mode_in OFF hvac_modes)
    then (hvac_modes ++ [OFF])%list else hvac_modes in
  raw_fan_modes <~ py_get (JDict device_data) "fanModes" (JList []) ;;
  let fan_modes := if truthy raw_fan_modes then Some raw_fan_modes else None in
  let supported_features :=
    if truthy raw_fan_modes
    then [ TARGET_TEMPERATURE; TURN_OFF; TURN_ON; FAN_MODE ]
    else [ TARGET_TEMPERATURE; TURN_OFF; TURN_ON ] in
  fan_mode <~ (if truthy raw_fan_modes then py_getitem0 raw_fan_modes
               else inr (JStr "auto")) ;;
  inr (mkClimateAttrs controller name unique_id sensor_entity
         min_temp max_temp step CELSIUS hvac_modes fan_modes
         supported_features OFF (24 # 1) fan_mode).

(** The send-path view of a constructed entity, when its initial fan
    mode is a string. *)
Definition entity_of (h : HomeAssistant) (device_data : dict)
    (a : ClimateAttrs) : option EasyIRClimate :=
  match attr_fan_mode a with
  | JStr f =>
      Some (mkClimate h device_data (attr_controller a)
              (attr_hvac_mode a) (attr_target_temperature a) f)
  | _ => None
  end.

(** [homeassistant.const.STATE_UNAVAILABLE], [STATE_UNKNOWN] *)
Definition STATE_UNAVAILABLE : string := "unavailable".
Definition STATE_UNKNOWN : string := "unknown".

Section Sensor.

(** Python's [float] and its parser of strings ([None]: [ValueError]). *)
Variable PyFloat : Type.
Variable float : string -> option PyFloat.

(** The entity together with the temperature it displays. *)
Record ClimateView : Type := mkView {
  entity : EasyIRClimate;
  _attr_current_temperature : option PyFloat
}.

(** Update current temperature when the source sensor changes;
    [new_state] is the [state] string of [event.data.get("new_state")]. *)
Definition _on_temp_sensor_change (new_state : option string)
    : M ClimateView unit :=
  match new_state with
  | None => ret tt
  | Some state =>
      if String.eqb state STATE_UNAVAILABLE || String.eqb state STATE_UNKNOWN
      then ret tt
      else
        match float state with
        | Some x =>
            self <- get ;;
            put (mkView (entity self) (Some x)) ;;
            async_write_ha_state
        | None => ret tt
        end
  end.

End Sensor.

End ClimateEntity.

(** ** The rest of [media_player.py]: construction and the actions *)

Module MediaEntity.
Import MediaPlayer.
Import ClimateEntity(rbind, ConfigEntry, entry_id, data_name, data_controller).

Notation "x <~ r ;; k" := (rbind r (fun x => k))
  (at level 61, r at next level, right associativity).

(** [homeassistant.components.media_player.MediaPlayerEntityFeature];
    a value of the flag type is the list of the flags or-ed together. *)
Inductive MediaPlayerEntityFeature : Type :=
| TURN_OFF | TURN_ON | VOLUME_STEP | VOLUME_MUTE
| SELECT_SOURCE | PLAY | PAUSE | STOP.

Inductive MediaPlayerDeviceClass : Type := TV.

Definition feature_eqb (a b : MediaPlayerEntityFeature) : bool :=
  match a, b with
  | TURN_OFF, TURN_OFF | TURN_ON, TURN_ON | VOLUME_STEP, VOLUME_STEP
  | VOLUME_MUTE, VOLUME_MUTE | SELECT_SOURCE, SELECT_SOURCE
  | PLAY, PLAY | PAUSE, PAUSE | STOP, STOP => true
  | _, _ => false
  end.

(** [bool(features & f)] *)
Definition supports (features : list MediaPlayerEntityFeature)
    (f : MediaPlayerEntityFeature) : bool :=
  existsb (feature_eqb f) features.

(** [sorted(l)] on strings.  Strings are compared by code point, which
    is the order of their bytes; the order is total and antisymmetric,
    so the sorted list does not depend on the sorting algorithm. *)
Fixpoint insert_sorted (x : string) (l : list string) : list string :=
  match l with
  | [] => [x]
  | y :: l' => if String.leb x y then x :: l else y :: insert_sorted x l'
  end.

Fixpoint sorted (l : list string) : list string :=
  match l with
  | [] => []
  | x :: l' => insert_sorted x (sorted l')
  end.

(** The attributes [__init__] sets. *)
Record MediaAttrs : Type := mkMediaAttrs {
  attr_controller : option string;
  attr_name : string;
  attr_unique_id : string;
  attr_device_class : MediaPlayerDeviceClass;
  attr_supported_features : list MediaPlayerEntityFeature;
  attr_source_list : option (list string);
  attr_state : string;
  attr_source : option string
}.

(** [a in commands and b in commands] *)
Definition both_in (a b : string) (commands : json) : result bool :=
  has_a <~ py_contains (Some a) commands ;;
  if has_a then py_contains (Some b) commands else inr false.

(** Initialize the media player. *)
Definition __init__ (entry : ConfigEntry) (device_data : dict)
    : result MediaAttrs :=
  let controller := data_controller entry in
  name <~ match data_name entry with
          | Some n => inr n
          | None => inl KeyError
          end ;;
  let unique_id := entry_id entry in
  let features := [ TURN_OFF; TURN_ON ] in
  commands <~ py_get (JDict device_data) "commands" (JDict []) ;;
  has_volume <~ both_in "volumeDown" "volumeUp" commands ;;
  let features :=
    if has_volume then (features ++ [ VOLUME_STEP; VOLUME_MUTE ])%list
    else features in
  has_sources <~ py_contains (Some "sources") commands ;;
  with_sources <~
    (if has_sources then
       sources <~ py_getitem commands (Some "sources") ;;
       keys <~ py_keys sources ;;
       inr ((features ++ [ SELECT_SOURCE ])%list, Some (sorted keys))
     else inr (features, None)) ;;
  let features := fst with_sources in
  let source_list := snd with_sources in
  has_play <~ both_in "play" "pause" commands ;;
  let features :=
    if has_play then (features ++ [ PLAY; PAUSE; STOP ])%list
    else features in
  inr (mkMediaAttrs controller name unique_id TV features source_list
         STATE_OFF None).

(** The send-path view of a constructed entity. *)
Definition entity_of (h : HomeAssistant) (device_data : dict)
    (a : MediaAttrs) : EasyIRMediaPlayer :=
  mkMediaPlayer h device_data (attr_controller a) (attr_state a)
    (attr_source a).

(** Turn volume up. *)
Definition async_volume_up : M EasyIRMediaPlayer unit :=
  _send_command "volumeUp".

(** Turn volume down. *)
Definition async_volume_down : M EasyIRMediaPlayer unit :=
  _send_command "volumeDown".

(** Mute the volume. *)
Definition async_mute_volume (mute : bool) : M EasyIRMediaPlayer unit :=
  _send_command "mute".

(** Send play command. *)
Definition async_media_play : M EasyIRMediaPlayer unit :=
  _send_command "play".

(** Send pause command. *)
Definition async_media_pause : M EasyIRMediaPlayer unit :=
  _send_command "pause".

(** Send stop command. *)
Definition async_media_stop : M EasyIRMediaPlayer unit :=
  _send_command "stop".

End MediaEntity.

(** ** What a run shows from outside *)

Module Obs.

Definition is_log (e : event) : bool :=
  match e with Log _ _ => true | _ => false end.

Definition is_publication (e : event) : bool :=
  match e with WriteHAState => true | _ => false end.

(** How often the state was published to the host. *)
Definition publications (tr : list event) : nat :=
  List.length (filter is_publication tr).

(** An item of a [command] payload that is a string carries the prefix. *)
Definition prefixed (item : json) : Prop :=
  match item with
  | JStr s => String.prefix B64_PREFIX s = true
  | _ => True
  end.

(** A call of [remote.send_command] on the controller [ctrl] whose
    string items are all prefixed. *)
Definition send_command_to (ctrl : option string) (e : event) : Prop :=
  match e with
  | ServiceCall domain service data =>
      domain = "remote" /\ service = "send_command"
      /\ entity_id data = ctrl /\ Forall prefixed (command data)
  | _ => True
  end.

(** A trace of log records followed by at most one call, which goes to
    [remote.send_command] on [ctrl] with [items] normalised. *)
Definition send_shaped (ctrl : option string) (tr : list event) : Prop :=
  exists logs,
    Forall (fun e => is_log e = true) logs
    /\ (tr = logs
        \/ exists items,
             tr = (logs ++ [ ServiceCall "remote" "send_command"
                               {| entity_id := ctrl;
                                  command := final_commands_of items |} ])%list).

(** The trace of a whole request: a send, then at most one publication
    of the state, which comes last. *)
Definition request_shaped (ctrl : option string) (tr : list event) : Prop :=
  exists sent,
    send_shaped ctrl sent
    /\ (tr = sent \/ tr = (sent ++ [ WriteHAState ])%list).

(** The run returned instead of raising. *)
Definition succeeded {S A : Type} (r : Res S A) : bool :=
  match outcome r with inr _ => true | inl _ => false end.

End Obs.
Import Obs.

(** ** Example tables and requests *)

Module Scenarios.

(** A host whose service registry accepts every call. *)
Definition host : HomeAssistant := mkHass (fun _ _ _ => None).

Definition controller : option string := Some "remote.living_room".

(** [{"commands": {"off": "AABB"}}] *)
Definition off_only_table : dict :=
  [ ("commands", JDict [ ("off", JStr "AABB") ]) ].

(** [{"commands": {"off": ""}}] *)
Definition empty_off_table : dict :=
  [ ("commands", JDict [ ("off", JStr EmptyString) ]) ].

(** [{"commands": {"cool": {"auto": {"24": "CCDD"}}}}] *)
Definition cool_auto_24 : dict :=
  [ ("24", JStr "CCDD") ].

Definition cool_fans : dict := [ ("auto", JDict cool_auto_24) ].

Definition cool_commands : dict := [ ("cool", JDict cool_fans) ].

Definition cool_table : dict := [ ("commands", JDict cool_commands) ].

Definition off_request : Climate.EasyIRClimate :=
  Climate.mkClimate host off_only_table controller Climate.OFF (24 # 1) "auto".

Definition empty_off_request : Climate.EasyIRClimate :=
  Climate.mkClimate host empty_off_table controller Climate.OFF (24 # 1) "auto".

Definition cool_auto_request : Climate.EasyIRClimate :=
  Climate.mkClimate host cool_table controller Climate.COOL (24 # 1) "auto".

Definition cool_low_request : Climate.EasyIRClimate :=
  Climate.mkClimate host cool_table controller Climate.COOL (24 # 1) "low".

Definition heat_request : Climate.EasyIRClimate :=
  Climate.mkClimate host cool_table controller Climate.HEAT (24 # 1) "auto".

(** [{"commands": {"power": "GGHH"}}] *)
Definition power_only_commands : dict := [ ("power", JStr "GGHH") ].

Definition power_only_player : MediaPlayer.EasyIRMediaPlayer :=
  MediaPlayer.mkMediaPlayer host [ ("commands", JDict power_only_commands) ]
    controller MediaPlayer.STATE_OFF None.

(** [{"commands": {"mute": "KKLL"}}]: neither [on], [off] nor [power]. *)
Definition mute_only_commands : dict := [ ("mute", JStr "KKLL") ].

Definition mute_only_player : MediaPlayer.EasyIRMediaPlayer :=
  MediaPlayer.mkMediaPlayer host [ ("commands", JDict mute_only_commands) ]
    controller MediaPlayer.STATE_OFF None.

End Scenarios.

(** ** Example tables for the constructors and the remaining methods *)

Module Devices.
Import Scenarios.

Definition living_room : ClimateEntity.ConfigEntry :=
  ClimateEntity.mkEntry "0123abcd" (Some "Living room") controller None.

(** A climate table that names its fan-only mode [fan]. *)
Definition fan_commands : dict :=
  [ ("off", JStr "AABB");
    ("cool", JDict [ ("auto", JDict [ ("24", JStr "CCDD") ]) ]);
    ("fan", JDict [ ("auto", JDict [ ("24", JStr "FFAA") ]) ]) ].

Definition fan_table : dict :=
  [ ("manufacturer", JStr "Acme");
    ("operationModes", JList [ JStr "cool"; JStr "fan" ]);
    ("fanModes", JList [ JStr "auto"; JStr "low" ]);
    ("commands", JDict fan_commands) ].

(** A climate entity whose table has no [commands] at all. *)
Definition no_commands_request (m : Climate.HVACMode) : Climate.EasyIRClimate :=
  Climate.mkClimate host [ ("manufacturer", JStr "Acme") ] controller
    m (24 # 1) "auto".

(** A television with volume keys, no [mute], and three sources, one of
    them with an empty code. *)
Definition tv_sources : dict :=
  [ ("HDMI2", JStr EmptyString); ("AV", JStr "SSAA"); ("HDMI1", JStr "SSBB") ].

Definition tv_commands : dict :=
  [ ("power", JStr "GGHH");
    ("volumeUp", JStr "VVUU");
    ("volumeDown", JStr "VVDD");
    ("sources", JDict tv_sources) ].

Definition tv_table : dict := [ ("commands", JDict tv_commands) ].

Definition tv : MediaPlayer.EasyIRMediaPlayer :=
  MediaPlayer.mkMediaPlayer host tv_table controller MediaPlayer.STATE_OFF None.

End Devices.

(** * Properties *)

(** ** The monad: which computations leave the entity untouched *)

Section Preserves.
Context {S : Type}.

Lemma preserves_ret {A} (x : A) : preserves (@ret S A x).
Proof. intro s. reflexivity. Qed.

Lemma preserves_raise {A} (e : exn) : preserves (@raise S A e).
Proof. intro s. reflexivity. Qed.

Lemma preserves_get : preserves (@get S).
Proof. intro s. reflexivity. Qed.

Lemma preserves_lift {A} (r : result A) : preserves (@lift S A r).
Proof. destruct r; intro s; reflexivity. Qed.

Lemma preserves_emit (e : event) : preserves (@emit S e).
Proof. intro s. reflexivity. Qed.

Lemma preserves_log lvl msg : preserves (@log S lvl msg).
Proof. apply preserves_emit. Qed.

Lemma preserves_bind {A B} (m : M S A) (k : A -> M S B) :
  preserves m -> (forall x, preserves (k x)) -> preserves (bind m k).
Proof.
  intros Hm Hk s. unfold bind. cbv zeta.
  destruct (outcome (m s)) as [e | x]; cbn [final].
  - apply Hm.
  - rewrite Hm. apply Hk.
Qed.

Lemma preserves_async_call hass domain service data :
  preserves (@async_call S hass domain service data).
Proof.
  unfold async_call. apply preserves_bind.
  - apply preserves_emit.
  - intros _. destruct (services_async_call hass domain service data).
    + apply preserves_raise.
    + apply preserves_ret.
Qed.

End Preserves.

Create HintDb preserves.

#[local] Hint Resolve preserves_ret preserves_raise preserves_get
  preserves_lift preserves_log preserves_emit preserves_async_call
  : preserves.

(** Walks down a monadic body, one bind or branch at a time. *)
Ltac preserves_steps :=
  repeat first
    [ progress auto with preserves
    | apply preserves_bind; [ | intros ? ]
    | match goal with
      | |- preserves (if ?b then _ else _) => destruct b
      | |- preserves (match ?x with _ => _ end) => destruct x
      end ].

(** ** The normalisation loop *)

Lemma final_commands_fold (items acc : list json) :
  fold_left (fun acc c => (acc ++ [final_command c])%list) items acc
  = (acc ++ map final_command items)%list.
Proof.
  revert acc. induction items as [ | c items IH ]; intro acc; cbn [fold_left map].
  - now rewrite app_nil_r.
  - rewrite IH, <- app_assoc. reflexivity.
Qed.

Lemma final_commands_of_map (items : list json) :
  final_commands_of items = map final_command items.
Proof. unfold final_commands_of. apply final_commands_fold. Qed.

Lemma prefix_b64_append (s : string) :
  String.prefix B64_PREFIX (B64_PREFIX ++ s) = true.
Proof. cbn. destruct s; reflexivity. Qed.

Lemma final_command_idempotent (c : json) :
  final_command (final_command c) = final_command c.
Proof.
  destruct c as [ | b | q | s | l | d ]; try reflexivity.
  cbn [final_command].
  destruct (String.prefix B64_PREFIX s) eqn:E; cbn [negb final_command].
  - now rewrite E.
  - now rewrite prefix_b64_append.
Qed.

(** ** Neither send path writes a field *)

Lemma climate_send_command_preserves (code : json) :
  preserves (Climate._send_command code).
Proof. unfold Climate._send_command. preserves_steps. Qed.

Lemma climate_send_ir_preserves : preserves Climate._async_send_ir.
Proof.
  unfold Climate._async_send_ir.
  pose proof climate_send_command_preserves.
  preserves_steps.
Qed.

Lemma media_send_raw_code_preserves (code : json) :
  preserves (MediaPlayer._send_raw_code code).
Proof. unfold MediaPlayer._send_raw_code. preserves_steps. Qed.

Lemma media_send_command_preserves (key : string) :
  preserves (MediaPlayer._send_command key).
Proof.
  unfold MediaPlayer._send_command.
  pose proof media_send_raw_code_preserves.
  preserves_steps.
Qed.

(** ** The transmitter *)

(** What either transmitter hands to [remote.send_command] for a code
    given as a list: one call, to the controller, with every item
    normalised; a fault of the host does not change what was handed over. *)
Lemma climate_send_command_list (l : list json) (self : Climate.EasyIRClimate) :
  transmissions (trace (Climate._send_command (JList l) self))
  = [ {| entity_id := Climate._controller self;
         command := map final_command l |} ].
Proof.
  unfold Climate._send_command, async_call, bind, get, log, emit.
  cbn [isinstance_str py_iter lift ret outcome final trace app].
  rewrite final_commands_of_map.
  destruct (services_async_call _ _ _ _); reflexivity.
Qed.

Lemma media_send_raw_code_list (l : list json) (self : MediaPlayer.EasyIRMediaPlayer) :
  transmissions (trace (MediaPlayer._send_raw_code (JList l) self))
  = [ {| entity_id := MediaPlayer._controller self;
         command := map final_command l |} ].
Proof.
  unfold MediaPlayer._send_raw_code, async_call, bind, get, emit.
  cbn [isinstance_str py_iter lift ret outcome final trace app].
  rewrite final_commands_of_map.
  destruct (services_async_call _ _ _ _); reflexivity.
Qed.

(** For a code given as one string the loop runs once. *)
Lemma climate_send_command_str (s : string) (self : Climate.EasyIRClimate) :
  Climate._send_command (JStr s) self
  = Climate._send_command (JList [JStr s]) self.
Proof. reflexivity. Qed.

Lemma media_send_raw_code_str (s : string) (self : MediaPlayer.EasyIRMediaPlayer) :
  MediaPlayer._send_raw_code (JStr s) self
  = MediaPlayer._send_raw_code (JList [JStr s]) self.
Proof. reflexivity. Qed.

(** C6: a code given as the string [s] and the same code wrapped as the
    one-element list [[s]] make the same run of either transmitter, and
    in particular the same single outbound call, whose [command] payload
    is the one normalised string. *)
Theorem string_and_singleton_same_payload (s : string) :
  (forall self,
      Climate._send_command (JStr s) self
      = Climate._send_command (JList [JStr s]) self
      /\ transmissions (trace (Climate._send_command (JStr s) self))
         = [ {| entity_id := Climate._controller self;
                command := [final_command (JStr s)] |} ])
  /\ (forall self,
      MediaPlayer._send_raw_code (JStr s) self
      = MediaPlayer._send_raw_code (JList [JStr s]) self
      /\ transmissions (trace (MediaPlayer._send_raw_code (JStr s) self))
         = [ {| entity_id := MediaPlayer._controller self;
                command := [final_command (JStr s)] |} ]).
Proof.
  split; intro self; (split; [ reflexivity | ]).
  - rewrite climate_send_command_str. apply climate_send_command_list.
  - rewrite media_send_raw_code_str. apply media_send_raw_code_list.
Qed.

(** C7: the transmitted form of a code string [s] is [s] itself when [s]
    starts with [b64:] and [b64:] followed by [s] otherwise, for a code
    that is the string and for the string as an item of a list, in both
    transmitters; the transmitted form starts with the prefix, and
    transmitting it again leaves it as it is. *)
Theorem prefix_applied_exactly_once (s : string) :
  let n := if String.prefix B64_PREFIX s then s else B64_PREFIX ++ s in
  final_command (JStr s) = JStr n
  /\ String.prefix B64_PREFIX n = true
  /\ final_command (JStr n) = JStr n
  /\ (forall self,
        transmissions (trace (Climate._send_command (JStr s) self))
        = [ {| entity_id := Climate._controller self; command := [JStr n] |} ]
        /\ transmissions (trace (Climate._send_command (JStr n) self))
           = [ {| entity_id := Climate._controller self; command := [JStr n] |} ])
  /\ (forall self,
        transmissions (trace (MediaPlayer._send_raw_code (JStr s) self))
        = [ {| entity_id := MediaPlayer._controller self; command := [JStr n] |} ]
        /\ transmissions (trace (MediaPlayer._send_raw_code (JStr n) self))
           = [ {| entity_id := MediaPlayer._controller self;
                  command := [JStr n] |} ])
  /\ (forall before after self,
        transmissions
          (trace (Climate._send_command
                    (JList (before ++ JStr s :: after)) self))
        = [ {| entity_id := Climate._controller self;
               command := (map final_command before
                           ++ JStr n :: map final_command after)%list |} ])
  /\ (forall before after self,
        transmissions
          (trace (MediaPlayer._send_raw_code
                    (JList (before ++ JStr s :: after)) self))
        = [ {| entity_id := MediaPlayer._controller self;
               command := (map final_command before
                           ++ JStr n :: map final_command after)%list |} ]).
Proof.
  intro n.
  assert (Hn : final_command (JStr s) = JStr n).
  { subst n. cbn [final_command].
    destruct (String.prefix B64_PREFIX s); reflexivity. }
  assert (Hp : String.prefix B64_PREFIX n = true).
  { subst n. destruct (String.prefix B64_PREFIX s) eqn:E;
      [ exact E | apply prefix_b64_append ]. }
  assert (Hi : final_command (JStr n) = JStr n).
  { rewrite <- Hn. apply final_command_idempotent. }
  repeat split; try assumption.
  - rewrite climate_send_command_str, climate_send_command_list.
    cbn [map]. now rewrite Hn.
  - rewrite climate_send_command_str, climate_send_command_list.
    cbn [map]. now rewrite Hi.
  - rewrite media_send_raw_code_str, media_send_raw_code_list.
    cbn [map]. now rewrite Hn.
  - rewrite media_send_raw_code_str, media_send_raw_code_list.
    cbn [map]. now rewrite Hi.
  - intros. rewrite climate_send_command_list, map_app. cbn [map]. now rewrite Hn.
  - intros. rewrite media_send_raw_code_list, map_app. cbn [map]. now rewrite Hn.
Qed.

(** ** Running a body step by step *)

Section Steps.
Context {S A B : Type}.
Implicit Types (s : S) (k : A -> M S B).

Lemma res_eta (r : Res S B) : mkRes (outcome r) (final r) (trace r) = r.
Proof. destruct r; reflexivity. Qed.

Lemma bind_ret (x : A) k s : bind (ret x) k s = k x s.
Proof. unfold bind, ret. cbn. apply res_eta. Qed.

Lemma bind_raise (e : exn) k s : bind (raise e) k s = mkRes (inl e) s [].
Proof. reflexivity. Qed.

Lemma bind_lift_inr (x : A) k s : bind (lift (inr x)) k s = k x s.
Proof. apply bind_ret. Qed.

Lemma bind_lift_inl (e : exn) k s :
  bind (lift (inl e)) k s = mkRes (inl e) s [].
Proof. reflexivity. Qed.

Lemma bind_get (k : S -> M S B) s : bind get k s = k s s.
Proof. unfold bind, get. cbn. apply res_eta. Qed.

Lemma bind_put (s' : S) (k : unit -> M S B) s : bind (put s') k s = k tt s'.
Proof. unfold bind, put. cbn. apply res_eta. Qed.

Lemma bind_emit (e : event) (k : unit -> M S B) s :
  bind (emit e) k s
  = mkRes (outcome (k tt s)) (final (k tt s)) (e :: trace (k tt s)).
Proof. reflexivity. Qed.

Lemma bind_log lvl msg (k : unit -> M S B) s :
  bind (log lvl msg) k s
  = mkRes (outcome (k tt s)) (final (k tt s)) (Log lvl msg :: trace (k tt s)).
Proof. reflexivity. Qed.

Lemma bind_assoc {C} (m : M S C) (f : C -> M S A) k s :
  bind (bind m f) k s = bind m (fun x => bind (f x) k) s.
Proof.
  unfold bind. cbv zeta.
  destruct (outcome (m s)) as [e | x]; cbn [outcome final trace];
    [ reflexivity | ].
  destruct (outcome (f x (final (m s)))) as [e | y];
    cbn [outcome final trace]; [ reflexivity | ].
  now rewrite app_assoc.
Qed.

End Steps.

Lemma HVACMode_eqb_OFF_false (m : Climate.HVACMode) :
  m <> Climate.OFF -> Climate.HVACMode_eqb m Climate.OFF = false.
Proof. destruct m; try reflexivity. congruence. Qed.

Ltac run_step :=
  first
    [ rewrite bind_get
    | rewrite bind_put
    | rewrite bind_lift_inr
    | rewrite bind_lift_inl
    | rewrite bind_ret
    | rewrite bind_raise
    | rewrite bind_log
    | rewrite bind_emit
    | rewrite bind_assoc ].

(** ** The climate resolver *)

(** C5: on a request for a mode other than off whose key is not in the
    table's [commands] mapping (or that has no key at all), the resolver
    returns normally having logged that the mode is missing and nothing
    else: the transmitter is not invoked and no field changes. *)
Theorem missing_mode_never_transmits
    (self : Climate.EasyIRClimate) (cmds : dict) :
  Climate._attr_hvac_mode self <> Climate.OFF ->
  py_get (JDict (Climate._device_data self)) "commands" (JDict [])
    = inr (JDict cmds) ->
  (forall mode_key,
      Climate.mode_dict_get Climate.HVAC_MODES_INV_MAP
        (Climate._attr_hvac_mode self) = Some mode_key ->
      dict_lookup mode_key cmds = None) ->
  let r := Climate._async_send_ir self in
  outcome r = inr tt
  /\ final r = self
  /\ trace r
     = [ Log ERROR
           ("EasyIR: Mode '"
            ++ str_of_optional
                 (Climate.mode_dict_get Climate.HVAC_MODES_INV_MAP
                    (Climate._attr_hvac_mode self))
            ++ "' missing from JSON.") ]
  /\ transmissions (trace r) = [].
Proof.
  intros Hoff Hcmds Hmiss r.
  assert (E : r = log ERROR
                    ("EasyIR: Mode '"
                     ++ str_of_optional
                          (Climate.mode_dict_get Climate.HVAC_MODES_INV_MAP
                             (Climate._attr_hvac_mode self))
                     ++ "' missing from JSON.") self).
  { subst r. unfold Climate._async_send_ir.
    run_step. rewrite (HVACMode_eqb_OFF_false _ Hoff).
    rewrite Hcmds. run_step.
    destruct (Climate.mode_dict_get Climate.HVAC_MODES_INV_MAP
                (Climate._attr_hvac_mode self)) as [ mode_key | ] eqn:Hkey;
      cbn [py_contains].
    - rewrite (Hmiss mode_key eq_refl). run_step. reflexivity.
    - run_step. reflexivity. }
  rewrite E. repeat split.
Qed.

(** Runs a body as far as the known table entries determine it. *)
Ltac run_lookups :=
  repeat first
    [ run_step
    | progress cbn [py_contains py_getitem py_get py_keys py_index0
                    negb map fst]
    | match goal with H : dict_lookup _ _ = _ |- _ => rewrite H end ].

Ltac enter_nested_path Hoff Hcmds Hkey :=
  unfold Climate._async_send_ir;
  run_step; rewrite (HVACMode_eqb_OFF_false _ Hoff);
  rewrite Hcmds, Hkey.

(** C3: on a request for a mode other than off whose mode key, fan and
    temperature key [str(int(value))] are all in the table, the code the
    resolver finds is the value stored at [commands[mode][fan][temp]]:
    the run is that of handing this very value to the transmitter (when
    it is truthy; otherwise nothing happens), with no log record and no
    substitution. *)
Theorem present_triple_resolves_to_stored_code
    (self : Climate.EasyIRClimate) (cmds fans temps : dict)
    (mode_key : string) (code : json) :
  Climate._attr_hvac_mode self <> Climate.OFF ->
  Climate.mode_dict_get Climate.HVAC_MODES_INV_MAP
    (Climate._attr_hvac_mode self) = Some mode_key ->
  py_get (JDict (Climate._device_data self)) "commands" (JDict [])
    = inr (JDict cmds) ->
  dict_lookup mode_key cmds = Some (JDict fans) ->
  dict_lookup (Climate._attr_fan_mode self) fans = Some (JDict temps) ->
  dict_lookup (str_of_int (py_int (Climate._attr_target_temperature self)))
    temps = Some code ->
  Climate._async_send_ir self
  = (if truthy code then Climate._send_command code else ret tt) self.
Proof.
  intros Hoff Hkey Hcmds Hfans Htemps Hcode.
  enter_nested_path Hoff Hcmds Hkey.
  run_lookups. reflexivity.
Qed.

(** C2: on a request for a mode other than off whose mode key is in the
    table with at least one fan entry, but whose fan is not among them,
    the resolver warns, takes the first fan the mode's mapping enumerates
    and, when the temperature key is under that fan, finds the code
    stored at [commands[mode][first fan][temp]]: after the warning the
    run is that of handing this value to the transmitter (when it is
    truthy). *)
Theorem absent_fan_falls_back_to_first
    (self : Climate.EasyIRClimate) (cmds fans temps : dict)
    (mode_key first_fan : string) (other_fans : list string) (code : json) :
  Climate._attr_hvac_mode self <> Climate.OFF ->
  Climate.mode_dict_get Climate.HVAC_MODES_INV_MAP
    (Climate._attr_hvac_mode self) = Some mode_key ->
  py_get (JDict (Climate._device_data self)) "commands" (JDict [])
    = inr (JDict cmds) ->
  dict_lookup mode_key cmds = Some (JDict fans) ->
  dict_lookup (Climate._attr_fan_mode self) fans = None ->
  map fst fans = first_fan :: other_fans ->
  dict_lookup first_fan fans = Some (JDict temps) ->
  dict_lookup (str_of_int (py_int (Climate._attr_target_temperature self)))
    temps = Some code ->
  Climate._async_send_ir self
  = (log WARNING ("EasyIR: Fan '" ++ Climate._attr_fan_mode self
                  ++ "' missing. Retrying with '" ++ first_fan ++ "'") ;;
     if truthy code then Climate._send_command code else ret tt) self.
Proof.
  intros Hoff Hkey Hcmds Hfans Hfan Hfirst Htemps Hcode.
  enter_nested_path Hoff Hcmds Hkey.
  run_lookups. rewrite Hfirst. run_lookups. reflexivity.
Qed.

(** C4: when the requested mode is off, only the top-level [off] entry
    decides the run.  With the key present, the entry itself goes through
    the truthiness gate to the transmitter: a non-empty string or list is
    transmitted, normalised, in one call.  With the key absent nothing is
    transmitted: the resolver logs that the command was not found and
    returns (or, without a [commands] mapping, raises before any call).
    The mode, fan and temperature entries are never consulted. *)
Theorem off_request_uses_off_entry (self : Climate.EasyIRClimate) :
  Climate._attr_hvac_mode self = Climate.OFF ->
  (forall cmds code,
      dict_lookup "commands" (Climate._device_data self) = Some (JDict cmds) ->
      dict_lookup "off" cmds = Some code ->
      Climate._async_send_ir self
      = (if truthy code then
           n <- lift (py_len code) ;;
           log DEBUG ("EasyIR: Found OFF command. Length: " ++ str_of_nat n) ;;
           Climate._send_command code
         else log ERROR "EasyIR: 'off' command not found in JSON!") self)
  /\ (forall cmds s,
      dict_lookup "commands" (Climate._device_data self) = Some (JDict cmds) ->
      dict_lookup "off" cmds = Some (JStr s) ->
      s <> EmptyString ->
      transmissions (trace (Climate._async_send_ir self))
      = [ {| entity_id := Climate._controller self;
             command := [final_command (JStr s)] |} ])
  /\ (forall cmds c l,
      dict_lookup "commands" (Climate._device_data self) = Some (JDict cmds) ->
      dict_lookup "off" cmds = Some (JList (c :: l)) ->
      transmissions (trace (Climate._async_send_ir self))
      = [ {| entity_id := Climate._controller self;
             command := map final_command (c :: l) |} ])
  /\ (forall cmds,
      dict_lookup "commands" (Climate._device_data self) = Some (JDict cmds) ->
      dict_lookup "off" cmds = None ->
      Climate._async_send_ir self
      = log ERROR "EasyIR: 'off' command not found in JSON!" self)
  /\ ((forall cmds,
        dict_lookup "commands" (Climate._device_data self)
          = Some (JDict cmds) ->
        dict_lookup "off" cmds = None) ->
      transmissions (trace (Climate._async_send_ir self)) = []).
Proof.
  intro Hoff.
  assert (Hgate : forall cmds code,
    dict_lookup "commands" (Climate._device_data self) = Some (JDict cmds) ->
    dict_lookup "off" cmds = Some code ->
    Climate._async_send_ir self
    = (if truthy code then
         n <- lift (py_len code) ;;
         log DEBUG ("EasyIR: Found OFF command. Length: " ++ str_of_nat n) ;;
         Climate._send_command code
       else log ERROR "EasyIR: 'off' command not found in JSON!") self).
  { intros cmds code Hcmds Hcode.
    unfold Climate._async_send_ir. run_step. rewrite Hoff.
    cbn [Climate.HVACMode_eqb]. run_lookups. reflexivity. }
  repeat split.
  - exact Hgate.
  - intros cmds s Hcmds Hcode Hs.
    rewrite (Hgate _ _ Hcmds Hcode). cbn [truthy].
    destruct (String.eqb_spec s EmptyString) as [ -> | _ ]; [ congruence | ].
    cbn [negb py_len]. run_lookups. cbn [trace transmissions].
    rewrite climate_send_command_str. apply climate_send_command_list.
  - intros cmds c l Hcmds Hcode.
    rewrite (Hgate _ _ Hcmds Hcode). cbn [truthy py_len]. run_lookups.
    cbn [trace transmissions]. apply climate_send_command_list.
  - intros cmds Hcmds Hcode.
    unfold Climate._async_send_ir. run_step. rewrite Hoff.
    cbn [Climate.HVACMode_eqb]. run_lookups. reflexivity.
  - intro Habsent.
    unfold Climate._async_send_ir. run_step. rewrite Hoff.
    cbn [Climate.HVACMode_eqb py_getitem].
    destruct (dict_lookup "commands" (Climate._device_data self))
      as [ v | ] eqn:Hcmds; [ | reflexivity ].
    run_step.
    destruct v as [ | b | q | s | l | cmds ]; try reflexivity.
    cbn [py_get]. rewrite (Habsent cmds eq_refl). run_lookups. reflexivity.
Qed.

(** The defect behind C1: the fallback indexes the list of fans of the
    mode without checking that it has an element.  On the table
    [{"commands": {"cool": {}}}] a request for cool, whatever the fan
    and the temperature, ends in [IndexError], raised while the warning
    is being formatted: nothing is logged and nothing is reported. *)
Theorem empty_fan_mapping_raises_IndexError
    (h : HomeAssistant) (controller : option string) (temperature : Q)
    (fan : string) :
  let self :=
    Climate.mkClimate h [ ("commands", JDict [ ("cool", JDict []) ]) ]
      controller Climate.COOL temperature fan in
  outcome (Climate._async_send_ir self) = inl IndexError
  /\ trace (Climate._async_send_ir self) = []
  /\ final (Climate._async_send_ir self) = self.
Proof. repeat split. Qed.

(** The other misses of the traversal are reported: a temperature key
    that is not under the resolved fan is logged and the resolver
    returns. *)
Lemma missing_temperature_reported
    (self : Climate.EasyIRClimate) (cmds fans temps : dict)
    (mode_key : string) :
  Climate._attr_hvac_mode self <> Climate.OFF ->
  Climate.mode_dict_get Climate.HVAC_MODES_INV_MAP
    (Climate._attr_hvac_mode self) = Some mode_key ->
  py_get (JDict (Climate._device_data self)) "commands" (JDict [])
    = inr (JDict cmds) ->
  dict_lookup mode_key cmds = Some (JDict fans) ->
  dict_lookup (Climate._attr_fan_mode self) fans = Some (JDict temps) ->
  dict_lookup (str_of_int (py_int (Climate._attr_target_temperature self)))
    temps = None ->
  Climate._async_send_ir self
  = log ERROR
      ("EasyIR: Temp '"
       ++ str_of_int (py_int (Climate._attr_target_temperature self))
       ++ "' missing from JSON.") self.
Proof.
  intros Hoff Hkey Hcmds Hfans Htemps Hcode.
  enter_nested_path Hoff Hcmds Hkey.
  run_lookups. reflexivity.
Qed.

(** An empty mapping under the mode always ends the request in
    [IndexError], before any log record or call. *)
Lemma empty_fan_mapping_raises
    (self : Climate.EasyIRClimate) (cmds : dict) (mode_key : string) :
  Climate._attr_hvac_mode self <> Climate.OFF ->
  Climate.mode_dict_get Climate.HVAC_MODES_INV_MAP
    (Climate._attr_hvac_mode self) = Some mode_key ->
  py_get (JDict (Climate._device_data self)) "commands" (JDict [])
    = inr (JDict cmds) ->
  dict_lookup mode_key cmds = Some (JDict []) ->
  Climate._async_send_ir self = raise IndexError self.
Proof.
  intros Hoff Hkey Hcmds Hfans.
  enter_nested_path Hoff Hcmds Hkey.
  run_lookups. cbn [dict_lookup]. run_lookups. reflexivity.
Qed.

(** ** The media-player resolver *)

Ltac enter_media_lookup Hcmds :=
  unfold MediaPlayer._send_command;
  run_step; rewrite Hcmds; run_step.

(** C8: when the [commands] mapping has no [on] key, the [on] action is
    resolved through the [power] key: the value stored there goes through
    the truthiness gate to the transmitter, so a non-empty code string
    is transmitted, normalised, in one call; this holds in particular
    for a table whose only command is [power].  Only when [power] is
    missing too does the resolver give up, with the not-found warning. *)
Theorem on_action_retries_power
    (self : MediaPlayer.EasyIRMediaPlayer) (cmds : dict) :
  py_get (JDict (MediaPlayer._device_data self)) "commands" (JDict [])
    = inr (JDict cmds) ->
  dict_lookup "on" cmds = None ->
  (forall code,
      dict_lookup "power" cmds = Some code ->
      MediaPlayer._send_command "on" self
      = (if truthy code then MediaPlayer._send_raw_code code
         else log WARNING
                "EasyIR: Command 'on' not found in device JSON.") self)
  /\ (forall s,
      dict_lookup "power" cmds = Some (JStr s) ->
      s <> EmptyString ->
      transmissions (trace (MediaPlayer._send_command "on" self))
      = [ {| entity_id := MediaPlayer._controller self;
             command := [final_command (JStr s)] |} ])
  /\ (forall code,
      cmds = [ ("power", code) ] ->
      MediaPlayer._send_command "on" self
      = (if truthy code then MediaPlayer._send_raw_code code
         else log WARNING
                "EasyIR: Command 'on' not found in device JSON.") self)
  /\ (dict_lookup "power" cmds = None ->
      MediaPlayer._send_command "on" self
      = log WARNING "EasyIR: Command 'on' not found in device JSON." self).
Proof.
  intros Hcmds Hon.
  assert (Hgate : forall code,
    dict_lookup "power" cmds = Some code ->
    MediaPlayer._send_command "on" self
    = (if truthy code then MediaPlayer._send_raw_code code
       else log WARNING
              "EasyIR: Command 'on' not found in device JSON.") self).
  { intros code Hpower. enter_media_lookup Hcmds.
    run_lookups. cbn [truthy negb andb String.eqb Ascii.eqb Bool.eqb].
    run_lookups. reflexivity. }
  repeat split.
  - exact Hgate.
  - intros s Hpower Hs. rewrite (Hgate _ Hpower). cbn [truthy].
    destruct (String.eqb_spec s EmptyString) as [ -> | _ ]; [ congruence | ].
    cbn [negb]. rewrite media_send_raw_code_str.
    apply media_send_raw_code_list.
  - intros code ->. apply Hgate. reflexivity.
  - intro Hpower. enter_media_lookup Hcmds.
    run_lookups. cbn [truthy negb andb String.eqb Ascii.eqb Bool.eqb].
    run_lookups. reflexivity.
Qed.

(** C10: a falsy code found at the resolved key is never transmitted.
    Climate: the [off] entry of an off request, the code at
    [commands[mode][fan][temp]], and the code reached through the fan
    fallback.  Media player: the code at the key of any action other
    than [on], and for [on] the code at [power], the key the resolver
    ends at once [on] itself holds nothing truthy.  In each case the
    resolver returns normally and no call is made. *)
Theorem falsy_code_never_transmitted (code : json) :
  truthy code = false ->
  (forall (self : Climate.EasyIRClimate) cmds,
      Climate._attr_hvac_mode self = Climate.OFF ->
      dict_lookup "commands" (Climate._device_data self) = Some (JDict cmds) ->
      dict_lookup "off" cmds = Some code ->
      outcome (Climate._async_send_ir self) = inr tt
      /\ transmissions (trace (Climate._async_send_ir self)) = [])
  /\ (forall (self : Climate.EasyIRClimate) cmds fans temps mode_key,
      Climate._attr_hvac_mode self <> Climate.OFF ->
      Climate.mode_dict_get Climate.HVAC_MODES_INV_MAP
        (Climate._attr_hvac_mode self) = Some mode_key ->
      py_get (JDict (Climate._device_data self)) "commands" (JDict [])
        = inr (JDict cmds) ->
      dict_lookup mode_key cmds = Some (JDict fans) ->
      dict_lookup (Climate._attr_fan_mode self) fans = Some (JDict temps) ->
      dict_lookup
        (str_of_int (py_int (Climate._attr_target_temperature self))) temps
        = Some code ->
      outcome (Climate._async_send_ir self) = inr tt
      /\ transmissions (trace (Climate._async_send_ir self)) = [])
  /\ (forall (self : Climate.EasyIRClimate) cmds fans temps mode_key
             first_fan other_fans,
      Climate._attr_hvac_mode self <> Climate.OFF ->
      Climate.mode_dict_get Climate.HVAC_MODES_INV_MAP
        (Climate._attr_hvac_mode self) = Some mode_key ->
      py_get (JDict (Climate._device_data self)) "commands" (JDict [])
        = inr (JDict cmds) ->
      dict_lookup mode_key cmds = Some (JDict fans) ->
      dict_lookup (Climate._attr_fan_mode self) fans = None ->
      map fst fans = first_fan :: other_fans ->
      dict_lookup first_fan fans = Some (JDict temps) ->
      dict_lookup
        (str_of_int (py_int (Climate._attr_target_temperature self))) temps
        = Some code ->
      outcome (Climate._async_send_ir self) = inr tt
      /\ transmissions (trace (Climate._async_send_ir self)) = [])
  /\ (forall (self : MediaPlayer.EasyIRMediaPlayer) cmds command_key,
      py_get (JDict (MediaPlayer._device_data self)) "commands" (JDict [])
        = inr (JDict cmds) ->
      command_key <> "on" ->
      dict_lookup command_key cmds = Some code ->
      outcome (MediaPlayer._send_command command_key self) = inr tt
      /\ transmissions (trace (MediaPlayer._send_command command_key self))
         = [])
  /\ (forall (self : MediaPlayer.EasyIRMediaPlayer) cmds,
      py_get (JDict (MediaPlayer._device_data self)) "commands" (JDict [])
        = inr (JDict cmds) ->
      (forall c, dict_lookup "on" cmds = Some c -> truthy c = false) ->
      dict_lookup "power" cmds = Some code ->
      outcome (MediaPlayer._send_command "on" self) = inr tt
      /\ transmissions (trace (MediaPlayer._send_command "on" self)) = []).
Proof.
  intro Hfalsy. repeat apply conj.
  - intros self cmds Hoff Hcmds Hcode.
    unfold Climate._async_send_ir. run_step. rewrite Hoff.
    cbn [Climate.HVACMode_eqb]. run_lookups. rewrite Hfalsy.
    split; reflexivity.
  - intros self cmds fans temps mode_key Hoff Hkey Hcmds Hfans Htemps Hcode.
    enter_nested_path Hoff Hcmds Hkey.
    run_lookups. rewrite Hfalsy. split; reflexivity.
  - intros self cmds fans temps mode_key first_fan other_fans
      Hoff Hkey Hcmds Hfans Hfan Hfirst Htemps Hcode.
    enter_nested_path Hoff Hcmds Hkey.
    run_lookups. rewrite Hfirst. run_lookups. rewrite Hfalsy.
    split; reflexivity.
  - intros self cmds command_key Hcmds Hkey Hcode.
    enter_media_lookup Hcmds. run_lookups.
    destruct (String.eqb_spec command_key "on") as [ E | _ ];
      [ contradiction | ].
    rewrite andb_false_r. run_step. rewrite Hfalsy.
    split; reflexivity.
  - intros self cmds Hcmds Hon Hpower.
    enter_media_lookup Hcmds. cbn [py_get].
    destruct (dict_lookup "on" cmds) as [ c | ] eqn:Eon.
    + run_step. rewrite (Hon c eq_refl).
      cbn [negb andb String.eqb Ascii.eqb Bool.eqb].
      run_lookups. rewrite Hfalsy.
      split; reflexivity.
    + run_step. cbn [truthy negb andb String.eqb Ascii.eqb Bool.eqb].
      run_lookups. rewrite Hfalsy.
      split; reflexivity.
Qed.

(** ** Entity state *)

Lemma climate_send_then_publish_preserves :
  preserves (Climate._async_send_ir ;; async_write_ha_state).
Proof.
  apply preserves_bind; [ apply climate_send_ir_preserves | ].
  intros _. apply preserves_emit.
Qed.

(** C9: a state-change request leaves the requested value in the field
    whether or not a code was resolved.  The climate setters write the
    field before they look anything up, and nothing on the send path
    writes a field, so after the request the entity is the old one with
    the new mode, temperature or fan, whatever the table holds.  The
    media player sets its state after the lookup: when neither [on] nor
    [power] (for turn-off: [off]) holds a truthy code, the lookup warns
    and returns, nothing is transmitted, and the state becomes the
    requested one and is published. *)
Theorem state_update_survives_failed_resolution :
  (forall (self : Climate.EasyIRClimate) hvac_mode,
      final (Climate.async_set_hvac_mode hvac_mode self)
      = Climate.set_hvac_mode self hvac_mode
      /\ Climate._attr_hvac_mode
           (final (Climate.async_set_hvac_mode hvac_mode self)) = hvac_mode)
  /\ (forall (self : Climate.EasyIRClimate) temp,
      final (Climate.async_set_temperature (Some temp) self)
      = Climate.set_target_temperature self temp
      /\ Climate._attr_target_temperature
           (final (Climate.async_set_temperature (Some temp) self)) = temp)
  /\ (forall (self : Climate.EasyIRClimate) fan_mode,
      final (Climate.async_set_fan_mode fan_mode self)
      = Climate.set_fan_mode self fan_mode
      /\ Climate._attr_fan_mode
           (final (Climate.async_set_fan_mode fan_mode self)) = fan_mode)
  /\ (forall (self : MediaPlayer.EasyIRMediaPlayer) cmds,
      py_get (JDict (MediaPlayer._device_data self)) "commands" (JDict [])
        = inr (JDict cmds) ->
      (forall c, dict_lookup "on" cmds = Some c -> truthy c = false) ->
      (forall c, dict_lookup "power" cmds = Some c -> truthy c = false) ->
      MediaPlayer.async_turn_on self
      = mkRes (inr tt) (MediaPlayer.set_state self MediaPlayer.STATE_ON)
          [ Log WARNING "EasyIR: Command 'on' not found in device JSON.";
            WriteHAState ])
  /\ (forall (self : MediaPlayer.EasyIRMediaPlayer) cmds,
      py_get (JDict (MediaPlayer._device_data self)) "commands" (JDict [])
        = inr (JDict cmds) ->
      (forall c, dict_lookup "off" cmds = Some c -> truthy c = false) ->
      MediaPlayer.async_turn_off self
      = mkRes (inr tt) (MediaPlayer.set_state self MediaPlayer.STATE_OFF)
          [ Log WARNING "EasyIR: Command 'off' not found in device JSON.";
            WriteHAState ]).
Proof.
  repeat apply conj.
  - intros self hvac_mode.
    assert (E : final (Climate.async_set_hvac_mode hvac_mode self)
                = Climate.set_hvac_mode self hvac_mode).
    { unfold Climate.async_set_hvac_mode. run_step. run_step.
      apply climate_send_then_publish_preserves. }
    split; [ exact E | now rewrite E ].
  - intros self temp.
    assert (E : final (Climate.async_set_temperature (Some temp) self)
                = Climate.set_target_temperature self temp).
    { unfold Climate.async_set_temperature. run_step. run_step.
      apply climate_send_then_publish_preserves. }
    split; [ exact E | now rewrite E ].
  - intros self fan_mode.
    assert (E : final (Climate.async_set_fan_mode fan_mode self)
                = Climate.set_fan_mode self fan_mode).
    { unfold Climate.async_set_fan_mode. run_step. run_step.
      apply climate_send_then_publish_preserves. }
    split; [ exact E | now rewrite E ].
  - intros self cmds Hcmds Hon Hpower.
    assert (E : MediaPlayer._send_command "on" self
                = log WARNING
                    "EasyIR: Command 'on' not found in device JSON." self).
    { enter_media_lookup Hcmds. cbn [py_get].
      assert (Hp : truthy match dict_lookup "power" cmds with
                          | Some v => v
                          | None => JNull
                          end = false).
      { destruct (dict_lookup "power" cmds) as [ c | ];
          [ now apply Hpower | reflexivity ]. }
      destruct (dict_lookup "on" cmds) as [ c | ] eqn:Eon.
      - run_step. rewrite (Hon c eq_refl).
        cbn [negb andb String.eqb Ascii.eqb Bool.eqb].
        run_lookups. rewrite Hp. reflexivity.
      - run_step. cbn [truthy negb andb String.eqb Ascii.eqb Bool.eqb].
        run_lookups. rewrite Hp. reflexivity. }
    unfold MediaPlayer.async_turn_on, bind. rewrite E. reflexivity.
  - intros self cmds Hcmds Hoff.
    assert (E : MediaPlayer._send_command "off" self
                = log WARNING
                    "EasyIR: Command 'off' not found in device JSON." self).
    { enter_media_lookup Hcmds. cbn [py_get].
      assert (Hp : truthy match dict_lookup "off" cmds with
                          | Some v => v
                          | None => JNull
                          end = false).
      { destruct (dict_lookup "off" cmds) as [ c | ];
          [ now apply Hoff | reflexivity ]. }
      run_step. rewrite Hp.
      cbn [negb andb String.eqb Ascii.eqb Bool.eqb].
      run_step. rewrite Hp. reflexivity. }
    unfold MediaPlayer.async_turn_off, bind. rewrite E. reflexivity.
Qed.

(** ** The scenarios of the specification, through the theorems *)

Import Scenarios.

(** [{"commands": {"cool": {"auto": {"24": "EEFF"}}}}], mode heat:
    not found, no transmission. *)
Lemma missing_mode_never_transmits_witness :
  Climate._attr_hvac_mode heat_request <> Climate.OFF
  /\ dict_lookup "heat" cool_commands = None
  /\ trace (Climate._async_send_ir heat_request)
     = [ Log ERROR "EasyIR: Mode 'heat' missing from JSON." ]
  /\ transmissions (trace (Climate._async_send_ir heat_request)) = [].
Proof.
  assert (Hoff : Climate._attr_hvac_mode heat_request <> Climate.OFF)
    by discriminate.
  assert (Hmiss : forall mode_key,
             Climate.mode_dict_get Climate.HVAC_MODES_INV_MAP
               (Climate._attr_hvac_mode heat_request) = Some mode_key ->
             dict_lookup mode_key cool_commands = None).
  { intros mode_key H. vm_compute in H. injection H as <-. reflexivity. }
  destruct (missing_mode_never_transmits heat_request cool_commands
              Hoff eq_refl Hmiss) as (_ & _ & Htrace & Hsent).
  exact (conj Hoff (conj eq_refl (conj Htrace Hsent))).
Defined.

(** Mode cool, fan auto, 24 degrees: the stored code, prefixed. *)
Lemma present_triple_resolves_to_stored_code_witness :
  Climate._attr_hvac_mode cool_auto_request <> Climate.OFF
  /\ dict_lookup "24" cool_auto_24 = Some (JStr "CCDD")
  /\ Climate._async_send_ir cool_auto_request
     = Climate._send_command (JStr "CCDD") cool_auto_request
  /\ transmissions (trace (Climate._async_send_ir cool_auto_request))
     = [ {| entity_id := controller; command := [ JStr "b64:CCDD" ] |} ].
Proof.
  assert (Hoff : Climate._attr_hvac_mode cool_auto_request <> Climate.OFF)
    by discriminate.
  pose proof (present_triple_resolves_to_stored_code cool_auto_request
                cool_commands cool_fans cool_auto_24 "cool" (JStr "CCDD")
                Hoff eq_refl eq_refl eq_refl eq_refl eq_refl) as E.
  refine (conj Hoff (conj eq_refl (conj E _))).
  rewrite E; reflexivity.
Defined.

(** Mode cool, fan low (absent), 24 degrees: fan auto is substituted. *)
Lemma absent_fan_falls_back_to_first_witness :
  Climate._attr_hvac_mode cool_low_request <> Climate.OFF
  /\ dict_lookup "low" cool_fans = None
  /\ map fst cool_fans = [ "auto" ]
  /\ logged WARNING (trace (Climate._async_send_ir cool_low_request))
     = [ "EasyIR: Fan 'low' missing. Retrying with 'auto'" ]
  /\ transmissions (trace (Climate._async_send_ir cool_low_request))
     = [ {| entity_id := controller; command := [ JStr "b64:CCDD" ] |} ].
Proof.
  assert (Hoff : Climate._attr_hvac_mode cool_low_request <> Climate.OFF)
    by discriminate.
  pose proof (absent_fan_falls_back_to_first cool_low_request
                cool_commands cool_fans cool_auto_24 "cool" "auto" []
                (JStr "CCDD")
                Hoff eq_refl eq_refl eq_refl eq_refl eq_refl eq_refl eq_refl)
    as E.
  refine (conj Hoff (conj eq_refl (conj eq_refl (conj _ _))));
    rewrite E; reflexivity.
Defined.

(** [{"commands": {"off": "AABB"}}], off: transmit ["b64:AABB"]. *)
Lemma off_request_uses_off_entry_witness :
  Climate._attr_hvac_mode off_request = Climate.OFF
  /\ transmissions (trace (Climate._async_send_ir off_request))
     = [ {| entity_id := controller; command := [ JStr "b64:AABB" ] |} ].
Proof.
  assert (Hoff : Climate._attr_hvac_mode off_request = Climate.OFF)
    by reflexivity.
  destruct (off_request_uses_off_entry off_request Hoff)
    as (_ & Hstr & _).
  split; [ exact Hoff | ].
  apply (Hstr [ ("off", JStr "AABB") ] "AABB");
    [ reflexivity | reflexivity | discriminate ].
Defined.

(** [{"commands": {"power": "GGHH"}}], on: transmit ["b64:GGHH"]. *)
Lemma on_action_retries_power_witness :
  dict_lookup "on" power_only_commands = None
  /\ transmissions (trace (MediaPlayer._send_command "on" power_only_player))
     = [ {| entity_id := controller; command := [ JStr "b64:GGHH" ] |} ].
Proof.
  assert (Hon : dict_lookup "on" power_only_commands = None) by reflexivity.
  destruct (on_action_retries_power power_only_player power_only_commands
              eq_refl Hon) as (_ & Hstr & _).
  split; [ exact Hon | ].
  apply (Hstr "GGHH"); [ reflexivity | discriminate ].
Defined.

(** [{"commands": {"off": ""}}], off: the empty code is not sent. *)
Lemma falsy_code_never_transmitted_witness :
  truthy (JStr EmptyString) = false
  /\ transmissions (trace (Climate._async_send_ir empty_off_request)) = [].
Proof.
  assert (Hfalsy : truthy (JStr EmptyString) = false) by reflexivity.
  destruct (falsy_code_never_transmitted (JStr EmptyString) Hfalsy)
    as (Hoff & _).
  split; [ exact Hfalsy | ].
  apply (Hoff empty_off_request [ ("off", JStr EmptyString) ]);
    reflexivity.
Defined.

(** A player whose table has neither [on] nor [power]: turning it on
    transmits nothing and still shows it as on. *)
Lemma state_update_survives_failed_resolution_witness :
  dict_lookup "on" mute_only_commands = None
  /\ dict_lookup "power" mute_only_commands = None
  /\ MediaPlayer._attr_state (final (MediaPlayer.async_turn_on mute_only_player))
     = MediaPlayer.STATE_ON
  /\ transmissions (trace (MediaPlayer.async_turn_on mute_only_player)) = []
  /\ Climate._attr_hvac_mode
       (final (Climate.async_set_hvac_mode Climate.HEAT cool_auto_request))
     = Climate.HEAT.
Proof.
  destruct state_update_survives_failed_resolution
    as (Hmode & _ & _ & Hon & _).
  assert (E : MediaPlayer.async_turn_on mute_only_player
              = mkRes (inr tt)
                  (MediaPlayer.set_state mute_only_player MediaPlayer.STATE_ON)
                  [ Log WARNING
                      "EasyIR: Command 'on' not found in device JSON.";
                    WriteHAState ]).
  { apply (Hon mute_only_player mute_only_commands);
      [ reflexivity | discriminate | discriminate ]. }
  refine (conj eq_refl (conj eq_refl (conj _ (conj _ _))));
    try (rewrite E; reflexivity).
  apply Hmode.
Defined.

(** ** Remarks on the edges of the resolvers *)

(** The key of a mode is read from the inverse map, in which [fan_only]
    has overwritten [fan]: a table that files its fan-only codes under
    [fan] is never reached by a fan-only request. *)
Remark fan_only_key :
  Climate.mode_dict_get Climate.HVAC_MODES_INV_MAP Climate.FAN_ONLY
  = Some "fan_only"
  /\ Climate.mode_dict_get Climate.HVAC_MODES_INV_MAP Climate.HEAT_COOL = None.
Proof. split; reflexivity. Qed.

(** The retry of [power] is also taken when [on] is in the table with a
    falsy code: the key the resolver ends at is then [power]. *)
Remark falsy_on_entry_retries_power (h : HomeAssistant) ctrl st src :
  transmissions
    (trace (MediaPlayer._send_command "on"
              (MediaPlayer.mkMediaPlayer h
                 [ ("commands",
                    JDict [ ("on", JStr EmptyString);
                            ("power", JStr "GGHH") ]) ]
                 ctrl st src)))
  = [ {| entity_id := ctrl; command := [ JStr "b64:GGHH" ] |} ].
Proof.
  cbv -[services_async_call].
  destruct (services_async_call h _ _ _); reflexivity.
Qed.

(** An off request on a table without a [commands] mapping raises
    [KeyError]: this branch subscripts where the other uses [.get]. *)
Remark off_request_without_commands (h : HomeAssistant) ctrl t fan :
  Climate._async_send_ir (Climate.mkClimate h [] ctrl Climate.OFF t fan)
  = raise KeyError (Climate.mkClimate h [] ctrl Climate.OFF t fan).
Proof. reflexivity. Qed.

(** * Further properties: the whole of the two entities *)

(** ** The shape of a send *)

Lemma transmissions_app (tr1 tr2 : list event) :
  transmissions (tr1 ++ tr2) = (transmissions tr1 ++ transmissions tr2)%list.
Proof.
  induction tr1 as [ | e tr1 IH ]; [ reflexivity | ].
  destruct e; cbn [app transmissions]; now rewrite IH.
Qed.

Lemma transmissions_logs (logs : list event) :
  Forall (fun e => is_log e = true) logs -> transmissions logs = [].
Proof.
  induction 1 as [ | e logs He _ IH ]; [ reflexivity | ].
  destruct e; try discriminate. exact IH.
Qed.

Lemma publications_app (tr1 tr2 : list event) :
  publications (tr1 ++ tr2) = (publications tr1 + publications tr2)%nat.
Proof. unfold publications. now rewrite filter_app, length_app. Qed.

Lemma publications_logs (logs : list event) :
  Forall (fun e => is_log e = true) logs -> publications logs = 0%nat.
Proof.
  induction 1 as [ | e logs He _ IH ]; [ reflexivity | ].
  destruct e; try discriminate. exact IH.
Qed.

Lemma final_command_prefixed (c : json) : prefixed (final_command c).
Proof.
  destruct c as [ | b | q | s | l | d ]; try exact I.
  cbn [final_command].
  destruct (String.prefix B64_PREFIX s) eqn:E; cbn [negb prefixed].
  - exact E.
  - apply prefix_b64_append.
Qed.

Lemma final_commands_prefixed (items : list json) :
  Forall prefixed (final_commands_of items).
Proof.
  rewrite final_commands_of_map. apply Forall_map, Forall_forall.
  intros c _. apply final_command_prefixed.
Qed.

Lemma send_shaped_nil ctrl : send_shaped ctrl [].
Proof. exists []. split; [ constructor | now left ]. Qed.

Lemma send_shaped_log ctrl lvl msg tr :
  send_shaped ctrl tr -> send_shaped ctrl (Log lvl msg :: tr).
Proof.
  intros (logs & Hlogs & Htr). exists (Log lvl msg :: logs). split.
  - constructor; [ reflexivity | exact Hlogs ].
  - destruct Htr as [ -> | (items & ->) ]; [ now left | right ].
    now exists items.
Qed.

Lemma climate_send_command_shaped code (self : Climate.EasyIRClimate) :
  send_shaped (Climate._controller self)
    (trace (Climate._send_command code self)).
Proof.
  unfold Climate._send_command. run_step.
  destruct (py_iter (if isinstance_str code then JList [code] else code))
    as [ e | items ]; run_step; [ apply send_shaped_nil | ].
  run_step. cbn [trace]. apply send_shaped_log.
  exists []. split; [ constructor | right ]. exists items.
  unfold async_call. run_step. cbn [trace].
  destruct (services_async_call _ _ _ _); reflexivity.
Qed.

Lemma media_send_raw_code_shaped code (self : MediaPlayer.EasyIRMediaPlayer) :
  send_shaped (MediaPlayer._controller self)
    (trace (MediaPlayer._send_raw_code code self)).
Proof.
  unfold MediaPlayer._send_raw_code. run_step.
  destruct (py_iter (if isinstance_str code then JList [code] else code))
    as [ e | items ]; run_step; [ apply send_shaped_nil | ].
  exists []. split; [ constructor | right ]. exists items.
  unfold async_call. run_step. cbn [trace].
  destruct (services_async_call _ _ _ _); reflexivity.
Qed.

(** Explores every path of a body: each operation that may raise and
    each test is split into its outcomes. *)
Ltac explore :=
  repeat first
    [ run_step
    | match goal with
      | |- context [ bind (lift ?r) _ _ ] => destruct r eqn:?
      | |- context [ bind (if ?b then _ else _) _ _ ] => destruct b eqn:?
      | |- context [ (if ?b then _ else _) _ ] => destruct b eqn:?
      end ].

Lemma climate_send_ir_shaped (self : Climate.EasyIRClimate) :
  send_shaped (Climate._controller self)
    (trace (Climate._async_send_ir self)).
Proof.
  unfold Climate._async_send_ir. explore; cbn [trace];
    repeat apply send_shaped_log;
    first [ apply send_shaped_nil | apply climate_send_command_shaped ].
Qed.

Lemma media_send_command_shaped key (self : MediaPlayer.EasyIRMediaPlayer) :
  send_shaped (MediaPlayer._controller self)
    (trace (MediaPlayer._send_command key self)).
Proof.
  unfold MediaPlayer._send_command. explore; cbn [trace];
    repeat apply send_shaped_log;
    first [ apply send_shaped_nil | apply media_send_raw_code_shaped ].
Qed.

Lemma send_shaped_one_call ctrl tr :
  send_shaped ctrl tr -> (List.length (transmissions tr) <= 1)%nat.
Proof.
  intros (logs & Hlogs & [ -> | (items & ->) ]).
  - rewrite (transmissions_logs _ Hlogs). cbn. lia.
  - rewrite transmissions_app, (transmissions_logs _ Hlogs). cbn. lia.
Qed.

Lemma send_shaped_calls ctrl tr :
  send_shaped ctrl tr -> Forall (send_command_to ctrl) tr.
Proof.
  assert (Hlog : forall logs, Forall (fun e => is_log e = true) logs ->
                   Forall (send_command_to ctrl) logs).
  { intros logs H. eapply Forall_impl; [ | exact H ].
    intros [ lvl msg | dom svc data | ]; try discriminate. intros _. exact I. }
  intros (logs & Hlogs & [ -> | (items & ->) ]); [ now apply Hlog | ].
  apply Forall_app. split; [ now apply Hlog | ].
  constructor; [ | constructor ].
  cbn. repeat split. apply final_commands_prefixed.
Qed.

Lemma send_shaped_unpublished ctrl tr :
  send_shaped ctrl tr -> publications tr = 0%nat.
Proof.
  intros (logs & Hlogs & [ -> | (items & ->) ]).
  - now apply publications_logs.
  - rewrite publications_app, (publications_logs _ Hlogs). reflexivity.
Qed.

Lemma request_shaped_one_call ctrl tr :
  request_shaped ctrl tr -> (List.length (transmissions tr) <= 1)%nat.
Proof.
  intros (sent & Hsent & [ -> | -> ]).
  - now apply (send_shaped_one_call ctrl).
  - rewrite transmissions_app. cbn. rewrite app_nil_r.
    now apply (send_shaped_one_call ctrl).
Qed.

Lemma request_shaped_calls ctrl tr :
  request_shaped ctrl tr -> Forall (send_command_to ctrl) tr.
Proof.
  intros (sent & Hsent & [ -> | -> ]).
  - now apply send_shaped_calls.
  - apply Forall_app. split; [ now apply send_shaped_calls | ].
    constructor; [ exact I | constructor ].
Qed.

Lemma request_shaped_published_once ctrl tr :
  request_shaped ctrl tr -> (publications tr <= 1)%nat.
Proof.
  intros (sent & Hsent & [ -> | -> ]).
  - rewrite (send_shaped_unpublished _ _ Hsent). lia.
  - rewrite publications_app, (send_shaped_unpublished _ _ Hsent).
    cbn. lia.
Qed.

(** ** The runs of the public methods, in terms of the send *)

(** A climate setter, once the field is written: the send, and then the
    publication unless the send raised. *)
Lemma climate_send_then_publish (s : Climate.EasyIRClimate) :
  (Climate._async_send_ir ;; async_write_ha_state) s
  = match outcome (Climate._async_send_ir s) with
    | inl e => mkRes (inl e) s (trace (Climate._async_send_ir s))
    | inr _ =>
        mkRes (inr tt) s
          (trace (Climate._async_send_ir s) ++ [ WriteHAState ])
    end.
Proof.
  unfold bind. rewrite climate_send_ir_preserves.
  destruct (outcome (Climate._async_send_ir s)); reflexivity.
Qed.

Lemma climate_set_hvac_mode_run hvac_mode (self : Climate.EasyIRClimate) :
  Climate.async_set_hvac_mode hvac_mode self
  = (Climate._async_send_ir ;; async_write_ha_state)
      (Climate.set_hvac_mode self hvac_mode).
Proof. unfold Climate.async_set_hvac_mode. now do 2 run_step. Qed.

Lemma climate_set_temperature_run temp (self : Climate.EasyIRClimate) :
  Climate.async_set_temperature (Some temp) self
  = (Climate._async_send_ir ;; async_write_ha_state)
      (Climate.set_target_temperature self temp).
Proof. unfold Climate.async_set_temperature. now do 2 run_step. Qed.

Lemma climate_set_fan_mode_run fan_mode (self : Climate.EasyIRClimate) :
  Climate.async_set_fan_mode fan_mode self
  = (Climate._async_send_ir ;; async_write_ha_state)
      (Climate.set_fan_mode self fan_mode).
Proof. unfold Climate.async_set_fan_mode. now do 2 run_step. Qed.

Lemma climate_send_then_publish_shaped (s : Climate.EasyIRClimate) :
  request_shaped (Climate._controller s)
    (trace ((Climate._async_send_ir ;; async_write_ha_state) s)).
Proof.
  rewrite climate_send_then_publish.
  exists (trace (Climate._async_send_ir s)).
  split; [ apply climate_send_ir_shaped | ].
  destruct (outcome (Climate._async_send_ir s)); [ now left | now right ].
Qed.

(** Turning the media player on or off: the lookup, and then the state
    and its publication unless the lookup or the send raised. *)
Lemma media_turn_on_run (self : MediaPlayer.EasyIRMediaPlayer) :
  MediaPlayer.async_turn_on self
  = match outcome (MediaPlayer._send_command "on" self) with
    | inl e =>
        mkRes (inl e) self (trace (MediaPlayer._send_command "on" self))
    | inr _ =>
        mkRes (inr tt) (MediaPlayer.set_state self MediaPlayer.STATE_ON)
          (trace (MediaPlayer._send_command "on" self) ++ [ WriteHAState ])
    end.
Proof.
  unfold MediaPlayer.async_turn_on, bind at 1. cbv zeta.
  rewrite media_send_command_preserves.
  destruct (outcome (MediaPlayer._send_command "on" self)); reflexivity.
Qed.

Lemma media_turn_off_run (self : MediaPlayer.EasyIRMediaPlayer) :
  MediaPlayer.async_turn_off self
  = match outcome (MediaPlayer._send_command "off" self) with
    | inl e =>
        mkRes (inl e) self (trace (MediaPlayer._send_command "off" self))
    | inr _ =>
        mkRes (inr tt) (MediaPlayer.set_state self MediaPlayer.STATE_OFF)
          (trace (MediaPlayer._send_command "off" self) ++ [ WriteHAState ])
    end.
Proof.
  unfold MediaPlayer.async_turn_off, bind at 1. cbv zeta.
  rewrite media_send_command_preserves.
  destruct (outcome (MediaPlayer._send_command "off" self)); reflexivity.
Qed.

(** The tail of a source selection: the send, and then the source and
    its publication unless the send raised. *)
Lemma media_send_then_set_source code source
    (self : MediaPlayer.EasyIRMediaPlayer) :
  (MediaPlayer._send_raw_code code ;;
   self <- get ;;
   put (MediaPlayer.set_source self (Some source)) ;;
   async_write_ha_state) self
  = match outcome (MediaPlayer._send_raw_code code self) with
    | inl e =>
        mkRes (inl e) self (trace (MediaPlayer._send_raw_code code self))
    | inr _ =>
        mkRes (inr tt) (MediaPlayer.set_source self (Some source))
          (trace (MediaPlayer._send_raw_code code self) ++ [ WriteHAState ])
    end.
Proof.
  unfold bind at 1. cbv zeta. rewrite media_send_raw_code_preserves.
  destruct (outcome (MediaPlayer._send_raw_code code self)); reflexivity.
Qed.

Lemma media_select_source_shaped source
    (self : MediaPlayer.EasyIRMediaPlayer) :
  request_shaped (MediaPlayer._controller self)
    (trace (MediaPlayer.async_select_source source self)).
Proof.
  unfold MediaPlayer.async_select_source. explore; cbn [trace];
    try (exists []; split; [ apply send_shaped_nil | now left ]).
  rewrite media_send_then_set_source.
  match goal with
  | |- context [ MediaPlayer._send_raw_code ?c self ] =>
      exists (trace (MediaPlayer._send_raw_code c self));
      split; [ apply media_send_raw_code_shaped | ];
      destruct (outcome (MediaPlayer._send_raw_code c self));
      [ now left | now right ]
  end.
Qed.

Lemma media_turn_on_shaped (self : MediaPlayer.EasyIRMediaPlayer) :
  request_shaped (MediaPlayer._controller self)
    (trace (MediaPlayer.async_turn_on self)).
Proof.
  rewrite media_turn_on_run.
  exists (trace (MediaPlayer._send_command "on" self)).
  split; [ apply media_send_command_shaped | ].
  destruct (outcome (MediaPlayer._send_command "on" self));
    [ now left | now right ].
Qed.

Lemma media_turn_off_shaped (self : MediaPlayer.EasyIRMediaPlayer) :
  request_shaped (MediaPlayer._controller self)
    (trace (MediaPlayer.async_turn_off self)).
Proof.
  rewrite media_turn_off_run.
  exists (trace (MediaPlayer._send_command "off" self)).
  split; [ apply media_send_command_shaped | ].
  destruct (outcome (MediaPlayer._send_command "off" self));
    [ now left | now right ].
Qed.

Lemma send_shaped_request ctrl tr : send_shaped ctrl tr -> request_shaped ctrl tr.
Proof. intro H. exists tr. split; [ exact H | now left ]. Qed.

(** Every request of either entity leaves a trace of the request shape. *)
Lemma climate_requests_shaped (self : Climate.EasyIRClimate) :
  request_shaped (Climate._controller self)
    (trace (Climate._async_send_ir self))
  /\ (forall hvac_mode,
        request_shaped (Climate._controller self)
          (trace (Climate.async_set_hvac_mode hvac_mode self)))
  /\ (forall temp,
        request_shaped (Climate._controller self)
          (trace (Climate.async_set_temperature temp self)))
  /\ (forall fan_mode,
        request_shaped (Climate._controller self)
          (trace (Climate.async_set_fan_mode fan_mode self))).
Proof.
  repeat apply conj.
  - apply send_shaped_request, climate_send_ir_shaped.
  - intro hvac_mode. rewrite climate_set_hvac_mode_run.
    apply (climate_send_then_publish_shaped
             (Climate.set_hvac_mode self hvac_mode)).
  - intros [ temp | ].
    + rewrite climate_set_temperature_run.
      apply (climate_send_then_publish_shaped
               (Climate.set_target_temperature self temp)).
    + apply send_shaped_request, send_shaped_nil.
  - intro fan_mode. rewrite climate_set_fan_mode_run.
    apply (climate_send_then_publish_shaped
             (Climate.set_fan_mode self fan_mode)).
Qed.

Lemma media_requests_shaped (self : MediaPlayer.EasyIRMediaPlayer) :
  (forall key,
      request_shaped (MediaPlayer._controller self)
        (trace (MediaPlayer._send_command key self)))
  /\ request_shaped (MediaPlayer._controller self)
       (trace (MediaPlayer.async_turn_on self))
  /\ request_shaped (MediaPlayer._controller self)
       (trace (MediaPlayer.async_turn_off self))
  /\ (forall source,
        request_shaped (MediaPlayer._controller self)
          (trace (MediaPlayer.async_select_source source self))).
Proof.
  repeat apply conj.
  - intro key. apply send_shaped_request, media_send_command_shaped.
  - apply media_turn_on_shaped.
  - apply media_turn_off_shaped.
  - intro source. apply media_select_source_shaped.
Qed.

(** ** Invariants of every request *)

(** X1: whatever the table and the state, a request makes at most one
    outbound call: the resolver alone, each climate setter, each media
    action, turning on or off, and selecting a source. *)
Theorem at_most_one_call_per_request :
  (forall (self : Climate.EasyIRClimate),
      (List.length (transmissions (trace (Climate._async_send_ir self)))
       <= 1)%nat
      /\ (forall hvac_mode,
            (List.length
               (transmissions
                  (trace (Climate.async_set_hvac_mode hvac_mode self)))
             <= 1)%nat)
      /\ (forall temp,
            (List.length
               (transmissions
                  (trace (Climate.async_set_temperature temp self)))
             <= 1)%nat)
      /\ (forall fan_mode,
            (List.length
               (transmissions
                  (trace (Climate.async_set_fan_mode fan_mode self)))
             <= 1)%nat))
  /\ (forall (self : MediaPlayer.EasyIRMediaPlayer),
      (forall key,
          (List.length
             (transmissions (trace (MediaPlayer._send_command key self)))
           <= 1)%nat)
      /\ (List.length
            (transmissions (trace (MediaPlayer.async_turn_on self)))
          <= 1)%nat
      /\ (List.length
            (transmissions (trace (MediaPlayer.async_turn_off self)))
          <= 1)%nat
      /\ (forall source,
            (List.length
               (transmissions
                  (trace (MediaPlayer.async_select_source source self)))
             <= 1)%nat)).
Proof.
  split; intro self.
  - destruct (climate_requests_shaped self) as (H1 & H2 & H3 & H4).
    repeat apply conj; intros;
      eapply request_shaped_one_call; eauto.
  - destruct (media_requests_shaped self) as (H1 & H2 & H3 & H4).
    repeat apply conj; intros;
      eapply request_shaped_one_call; eauto.
Qed.

(** X2: whatever the table and the state, every outbound call of a
    request is [remote.send_command] on the entity's controller, and
    every string of its [command] payload starts with [b64:]. *)
Theorem every_call_targets_controller_with_prefixed_codes :
  (forall (self : Climate.EasyIRClimate),
      Forall (send_command_to (Climate._controller self))
        (trace (Climate._async_send_ir self))
      /\ (forall hvac_mode,
            Forall (send_command_to (Climate._controller self))
              (trace (Climate.async_set_hvac_mode hvac_mode self)))
      /\ (forall temp,
            Forall (send_command_to (Climate._controller self))
              (trace (Climate.async_set_temperature temp self)))
      /\ (forall fan_mode,
            Forall (send_command_to (Climate._controller self))
              (trace (Climate.async_set_fan_mode fan_mode self))))
  /\ (forall (self : MediaPlayer.EasyIRMediaPlayer),
      (forall key,
          Forall (send_command_to (MediaPlayer._controller self))
            (trace (MediaPlayer._send_command key self)))
      /\ Forall (send_command_to (MediaPlayer._controller self))
           (trace (MediaPlayer.async_turn_on self))
      /\ Forall (send_command_to (MediaPlayer._controller self))
           (trace (MediaPlayer.async_turn_off self))
      /\ (forall source,
            Forall (send_command_to (MediaPlayer._controller self))
              (trace (MediaPlayer.async_select_source source self)))).
Proof.
  split; intro self.
  - destruct (climate_requests_shaped self) as (H1 & H2 & H3 & H4).
    repeat apply conj; intros; apply request_shaped_calls; auto.
  - destruct (media_requests_shaped self) as (H1 & H2 & H3 & H4).
    repeat apply conj; intros; apply request_shaped_calls; auto.
Qed.



(** X4: the media player writes its state only after the lookup and the
    send have returned.  Turning on or off either returns, with the
    requested state set and published once as the last step, or raises
    with the entity exactly as it was and nothing published.  Selecting
    a source does the same with the source field, and when it returns
    without a trace the source was not in the table and nothing
    changed. *)
Theorem media_state_changes_iff_request_returns
    (self : MediaPlayer.EasyIRMediaPlayer) :
  (let r := MediaPlayer.async_turn_on self in
   if succeeded r
   then final r = MediaPlayer.set_state self MediaPlayer.STATE_ON
        /\ trace r
           = (trace (MediaPlayer._send_command "on" self)
              ++ [ WriteHAState ])%list
        /\ publications (trace r) = 1%nat
   else final r = self /\ publications (trace r) = 0%nat
        /\ outcome (MediaPlayer._send_command "on" self) = outcome r)
  /\ (let r := MediaPlayer.async_turn_off self in
      if succeeded r
      then final r = MediaPlayer.set_state self MediaPlayer.STATE_OFF
           /\ trace r
              = (trace (MediaPlayer._send_command "off" self)
                 ++ [ WriteHAState ])%list
           /\ publications (trace r) = 1%nat
      else final r = self /\ publications (trace r) = 0%nat
           /\ outcome (MediaPlayer._send_command "off" self) = outcome r)
  /\ (forall source,
      let r := MediaPlayer.async_select_source source self in
      if succeeded r
      then (final r = self /\ trace r = [])
           \/ (final r = MediaPlayer.set_source self (Some source)
               /\ publications (trace r) = 1%nat
               /\ exists sent, trace r = (sent ++ [ WriteHAState ])%list)
      else final r = self /\ publications (trace r) = 0%nat).
Proof.
  repeat apply conj.
  - cbv zeta. rewrite media_turn_on_run.
    pose proof (send_shaped_unpublished _ _
                  (media_send_command_shaped "on" self)) as Hp.
    unfold succeeded.
    destruct (outcome (MediaPlayer._send_command "on" self)) as [ e | [] ];
      cbn [outcome final trace]; repeat apply conj; try reflexivity;
      try exact Hp.
    rewrite publications_app, Hp. reflexivity.
  - cbv zeta. rewrite media_turn_off_run.
    pose proof (send_shaped_unpublished _ _
                  (media_send_command_shaped "off" self)) as Hp.
    unfold succeeded.
    destruct (outcome (MediaPlayer._send_command "off" self)) as [ e | [] ];
      cbn [outcome final trace]; repeat apply conj; try reflexivity;
      try exact Hp.
    rewrite publications_app, Hp. reflexivity.
  - intro source. cbv zeta.
    unfold MediaPlayer.async_select_source. explore;
      try (unfold succeeded; cbn [outcome final trace publications filter
                                   List.length];
           first [ split; reflexivity | left; split; reflexivity ]).
    rewrite media_send_then_set_source.
    match goal with
    | |- context [ MediaPlayer._send_raw_code ?c self ] =>
        pose proof (send_shaped_unpublished _ _
                      (media_send_raw_code_shaped c self)) as Hp;
        unfold succeeded;
        destruct (outcome (MediaPlayer._send_raw_code c self))
          as [ e | [] ]; cbn [outcome final trace]
    end.
    + split; [ reflexivity | exact Hp ].
    + right. repeat apply conj; [ reflexivity | | eauto ].
      rewrite publications_app, Hp. reflexivity.
Qed.

(** ** The temperature key *)

(** The transmitter reads the host and the controller only. *)
Lemma climate_send_command_reads h d c code m1 t1 f1 m2 t2 f2 :
  outcome (Climate._send_command code (Climate.mkClimate h d c m1 t1 f1))
  = outcome (Climate._send_command code (Climate.mkClimate h d c m2 t2 f2))
  /\ trace (Climate._send_command code (Climate.mkClimate h d c m1 t1 f1))
     = trace (Climate._send_command code (Climate.mkClimate h d c m2 t2 f2)).
Proof.
  unfold Climate._send_command. do 2 run_step.
  destruct (py_iter (if isinstance_str code then JList [code] else code))
    as [ e | items ]; repeat run_step; [ split; reflexivity | ].
  cbn [Climate.hass Climate._controller outcome trace].
  unfold async_call. repeat run_step. cbn [outcome trace].
  destruct (services_async_call _ _ _ _); split; reflexivity.
Qed.

(** X5: the resolver sees the target temperature only through
    [int(...)], which cuts the fraction off: two requests that differ
    only in temperatures with the same integer part (24.5 and 24, or
    -0.5 and 0.5) end the same way and leave the same trace. *)
Theorem temperature_is_truncated
    (self : Climate.EasyIRClimate) (t1 t2 : Q) :
  py_int t1 = py_int t2 ->
  outcome (Climate._async_send_ir (Climate.set_target_temperature self t1))
  = outcome (Climate._async_send_ir (Climate.set_target_temperature self t2))
  /\ trace (Climate._async_send_ir (Climate.set_target_temperature self t1))
     = trace (Climate._async_send_ir (Climate.set_target_temperature self t2)).
Proof.
  intro Hint. destruct self as [ h d c m t f ].
  unfold Climate.set_target_temperature, Climate._async_send_ir.
  cbn [Climate.hass Climate._device_data Climate._controller
       Climate._attr_hvac_mode Climate._attr_fan_mode
       Climate._attr_target_temperature].
  do 2 run_step.
  cbn [Climate.hass Climate._device_data Climate._controller
       Climate._attr_hvac_mode Climate._attr_fan_mode
       Climate._attr_target_temperature].
  rewrite Hint.
  explore; cbn [outcome trace]; try (split; reflexivity);
    match goal with
    | |- context [ Climate._send_command ?code _ ] =>
        destruct (climate_send_command_reads h d c code m t1 f m t2 f)
          as [ Ho Ht ];
        rewrite Ho, Ht; split; reflexivity
    end.
Qed.

(** ** The transmitters, completely *)

(** X6: what a transmitter does with a code.  For a list it makes one
    call with every item normalised, in order, and its outcome is the
    host's answer: the host's exception reaches the caller unchanged,
    after the call went out.  The climate transmitter first logs the
    number of items and the controller.  A code that cannot be iterated
    (null, a boolean, a number) raises [TypeError] before anything is
    logged or sent. *)
Theorem transmitter_outcome_is_the_hosts_answer :
  (forall (self : Climate.EasyIRClimate) (l : list json),
      let data := {| entity_id := Climate._controller self;
                     command := map final_command l |} in
      Climate._send_command (JList l) self
      = mkRes
          match services_async_call (Climate.hass self)
                  "remote" "send_command" data with
          | Some e => inl e
          | None => inr tt
          end
          self
          [ Log INFO ("EasyIR: Sending " ++ str_of_nat (List.length l)
                      ++ " command(s) to "
                      ++ str_of_optional (Climate._controller self));
            ServiceCall "remote" "send_command" data ])
  /\ (forall (self : MediaPlayer.EasyIRMediaPlayer) (l : list json),
      let data := {| entity_id := MediaPlayer._controller self;
                     command := map final_command l |} in
      MediaPlayer._send_raw_code (JList l) self
      = mkRes
          match services_async_call (MediaPlayer.hass self)
                  "remote" "send_command" data with
          | Some e => inl e
          | None => inr tt
          end
          self
          [ ServiceCall "remote" "send_command" data ])
  /\ (forall (self : Climate.EasyIRClimate) b q,
      Climate._send_command JNull self = raise TypeError self
      /\ Climate._send_command (JBool b) self = raise TypeError self
      /\ Climate._send_command (JNum q) self = raise TypeError self)
  /\ (forall (self : MediaPlayer.EasyIRMediaPlayer) b q,
      MediaPlayer._send_raw_code JNull self = raise TypeError self
      /\ MediaPlayer._send_raw_code (JBool b) self = raise TypeError self
      /\ MediaPlayer._send_raw_code (JNum q) self = raise TypeError self).
Proof.
  split; [ | split; [ | split ] ].
  4: intros self b q; repeat split.
  3: intros self b q; repeat split.
  - intros self l. cbv zeta.
    unfold Climate._send_command, async_call. repeat run_step.
    cbn [isinstance_str py_iter]. repeat run_step.
    rewrite final_commands_of_map, length_map.
    destruct (services_async_call _ _ _ _); reflexivity.
  - intros self l. cbv zeta.
    unfold MediaPlayer._send_raw_code, async_call. repeat run_step.
    cbn [isinstance_str py_iter]. repeat run_step.
    rewrite final_commands_of_map.
    destruct (services_async_call _ _ _ _); reflexivity.
Qed.

(** ** Misses of the climate resolver *)

(** X8: a table without a [commands] mapping.  The nested traversal
    reads it with [.get] and reports the mode as missing; the off
    branch subscripts and raises [KeyError], with nothing logged. *)
Theorem table_without_commands (self : Climate.EasyIRClimate) :
  dict_lookup "commands" (Climate._device_data self) = None ->
  Climate._async_send_ir self
  = if Climate.HVACMode_eqb (Climate._attr_hvac_mode self) Climate.OFF
    then raise KeyError self
    else log ERROR
           ("EasyIR: Mode '"
            ++ str_of_optional
                 (Climate.mode_dict_get Climate.HVAC_MODES_INV_MAP
                    (Climate._attr_hvac_mode self))
            ++ "' missing from JSON.") self.
Proof.
  intro Hnone. unfold Climate._async_send_ir. run_step.
  destruct (Climate.HVACMode_eqb (Climate._attr_hvac_mode self) Climate.OFF).
  - cbn [py_getitem]. rewrite Hnone. now run_step.
  - cbn [py_get]. rewrite Hnone. run_step. cbn [py_contains].
    destruct (Climate.mode_dict_get Climate.HVAC_MODES_INV_MAP
                (Climate._attr_hvac_mode self));
      cbn [dict_lookup]; run_step; reflexivity.
Qed.

(** ** The mode maps *)

Lemma HVACMode_eqb_eq (a b : Climate.HVACMode) :
  Climate.HVACMode_eqb a b = true <-> a = b.
Proof. split; [ destruct a, b; (reflexivity || discriminate) | intros ->; now destruct b ]. Qed.

Lemma HVACMode_eqb_neq (a b : Climate.HVACMode) :
  Climate.HVACMode_eqb a b = false <-> a <> b.
Proof.
  split.
  - intros H E. apply HVACMode_eqb_eq in E. congruence.
  - intro H. destruct (Climate.HVACMode_eqb a b) eqn:E; [ | reflexivity ].
    apply HVACMode_eqb_eq in E. contradiction.
Qed.

(** Reading a mode dict after an assignment. *)
Lemma mode_dict_get_set d k v k' :
  Climate.mode_dict_get (Climate.mode_dict_set d k v) k'
  = if Climate.HVACMode_eqb k' k then Some v else Climate.mode_dict_get d k'.
Proof.
  induction d as [ | [ k0 v0 ] d IH ]; cbn [Climate.mode_dict_set
                                           Climate.mode_dict_get].
  - reflexivity.
  - destruct (Climate.HVACMode_eqb k k0) eqn:E0;
      cbn [Climate.mode_dict_get].
    + apply HVACMode_eqb_eq in E0. subst k0.
      destruct (Climate.HVACMode_eqb k' k); reflexivity.
    + rewrite IH.
      destruct (Climate.HVACMode_eqb k' k0) eqn:E1; [ | reflexivity ].
      apply HVACMode_eqb_eq in E1. subst k0.
      destruct (Climate.HVACMode_eqb k' k) eqn:E2; [ | reflexivity ].
      apply HVACMode_eqb_eq in E2. subst k'.
      apply HVACMode_eqb_neq in E0. contradiction.
Qed.

Lemma find_in_app {A} (f : A -> bool) (l1 l2 : list A) :
  find f (l1 ++ l2)
  = match find f l1 with Some x => Some x | None => find f l2 end.
Proof.
  induction l1 as [ | x l1 IH ]; [ reflexivity | ].
  cbn [app find]. destruct (f x); [ reflexivity | exact IH ].
Qed.

(** The comprehension, one item at a time: the last key of [m] that
    maps to [mode] decides; without one, what was there stays. *)
Lemma inverse_fold_get m acc mode :
  Climate.mode_dict_get
    (fold_left (fun acc kv => Climate.mode_dict_set acc (snd kv) (fst kv))
       m acc) mode
  = match find (fun kv => Climate.HVACMode_eqb mode (snd kv)) (rev m) with
    | Some kv => Some (fst kv)
    | None => Climate.mode_dict_get acc mode
    end.
Proof.
  revert acc. induction m as [ | [ k v ] m IH ]; intro acc;
    [ reflexivity | ].
  cbn [fold_left rev fst snd]. rewrite IH, find_in_app.
  destruct (find _ (rev m)) as [ kv | ]; [ reflexivity | ].
  cbn [find snd fst]. rewrite mode_dict_get_set.
  destruct (Climate.HVACMode_eqb mode v); reflexivity.
Qed.

(** X9: inverting a map of mode names.  An entry of the inverse comes
    from the map, every mode the map reaches has an entry, and among
    several names of one mode the last one wins.  For the two maps of
    the integration: every name but [fan] is given back by the inverse
    of its mode, [fan] comes back as [fan_only], and the key of a mode
    always maps to that mode. *)
Theorem inverse_mode_map_round_trip :
  (forall m mode key,
      Climate.mode_dict_get (ClimateEntity.inverse_of m) mode = Some key ->
      In (key, mode) m)
  /\ (forall m mode key,
      In (key, mode) m ->
      Climate.mode_dict_get (ClimateEntity.inverse_of m) mode <> None)
  /\ (forall m1 key mode m2,
      (forall key', ~ In (key', mode) m2) ->
      Climate.mode_dict_get
        (ClimateEntity.inverse_of (m1 ++ (key, mode) :: m2)) mode
      = Some key)
  /\ Climate.HVAC_MODES_INV_MAP
     = ClimateEntity.inverse_of Climate.HVAC_MODES_MAP
  /\ (forall key mode,
      ClimateEntity.modes_map_get Climate.HVAC_MODES_MAP key = Some mode ->
      Climate.mode_dict_get Climate.HVAC_MODES_INV_MAP mode
      = Some (if String.eqb key "fan" then "fan_only" else key))
  /\ (forall mode key,
      Climate.mode_dict_get Climate.HVAC_MODES_INV_MAP mode = Some key ->
      ClimateEntity.modes_map_get Climate.HVAC_MODES_MAP key = Some mode).
Proof.
  repeat apply conj.
  - intros m mode key. unfold ClimateEntity.inverse_of.
    rewrite inverse_fold_get.
    destruct (find _ (rev m)) as [ [ k v ] | ] eqn:E; [ | discriminate ].
    apply find_some in E. destruct E as [ Hin Heq ].
    cbn [fst snd] in *. apply HVACMode_eqb_eq in Heq. subst v.
    intro H. injection H as <-. now apply in_rev.
  - intros m mode key Hin. unfold ClimateEntity.inverse_of.
    rewrite inverse_fold_get.
    destruct (find _ (rev m)) as [ kv | ] eqn:E; [ discriminate | ].
    exfalso. apply in_rev in Hin.
    pose proof (find_none _ _ E _ Hin) as Hno. cbn [snd] in Hno.
    apply HVACMode_eqb_neq in Hno. now apply Hno.
  - intros m1 key mode m2 Hlast. unfold ClimateEntity.inverse_of.
    rewrite inverse_fold_get, rev_app_distr. cbn [rev].
    rewrite <- app_assoc, find_in_app.
    destruct (find _ (rev m2)) as [ [ k v ] | ] eqn:E.
    + apply find_some in E. destruct E as [ Hin Heq ].
      cbn [snd] in Heq. apply HVACMode_eqb_eq in Heq. subst v.
      apply in_rev in Hin. now apply Hlast in Hin.
    + cbn [app find snd fst].
      assert (Hrefl : Climate.HVACMode_eqb mode mode = true)
        by now apply HVACMode_eqb_eq.
      now rewrite Hrefl.
  - reflexivity.
  - intros key mode. cbn [ClimateEntity.modes_map_get Climate.HVAC_MODES_MAP].
    repeat match goal with
           | |- context [ String.eqb key ?s ] =>
               destruct (String.eqb_spec key s) as [ -> | ? ]
           end;
      intro H; try discriminate; injection H as <-; reflexivity.
  - intros mode key. destruct mode; cbn; intro H; try discriminate;
      injection H as <-; reflexivity.
Qed.

(** ** Construction of the climate entity *)

Lemma modes_map_never_heat_cool (s : string) (m : Climate.HVACMode) :
  ClimateEntity.modes_map_get Climate.HVAC_MODES_MAP s = Some m ->
  Climate.mode_dict_get Climate.HVAC_MODES_INV_MAP m <> None.
Proof.
  cbn [ClimateEntity.modes_map_get Climate.HVAC_MODES_MAP].
  repeat match goal with
         | |- context [ String.eqb s ?k ] => destruct (String.eqb s k)
         end;
    intro H; try discriminate; injection H as <-; discriminate.
Qed.

(** The modes the comprehension yields are exactly the images of the
    strings of the list that are mode names. *)
Lemma hvac_modes_of_spec (items : list json) (modes : list Climate.HVACMode) :
  ClimateEntity.hvac_modes_of items = inr modes ->
  forall m,
    In m modes
    <-> exists s,
          In (JStr s) items
          /\ ClimateEntity.modes_map_get Climate.HVAC_MODES_MAP s = Some m.
Proof.
  revert modes. induction items as [ | x items IH ]; intros modes H m.
  - injection H as <-. split; [ intros [] | intros (s & [] & _) ].
  - cbn [ClimateEntity.hvac_modes_of] in H.
    assert (Hskip : (forall s, x <> JStr s
                          \/ ClimateEntity.modes_map_get
                               Climate.HVAC_MODES_MAP s = None) ->
                    ClimateEntity.hvac_modes_of items = inr modes ->
                    In m modes
                    <-> exists s,
                          In (JStr s) (x :: items)
                          /\ ClimateEntity.modes_map_get
                               Climate.HVAC_MODES_MAP s = Some m).
    { intros Hx Hrest. rewrite (IH modes Hrest m). split.
      - intros (s & Hin & Hs). exists s. split; [ now right | exact Hs ].
      - intros (s & [ E | Hin ] & Hs); [ | now exists s ].
        destruct (Hx s) as [ Hne | Hnone ]; congruence. }
    destruct x as [ | b | q | s0 | l | d ]; try discriminate;
      try (apply Hskip; [ intro s; left; discriminate | exact H ]).
    destruct (ClimateEntity.modes_map_get Climate.HVAC_MODES_MAP s0)
      as [ m0 | ] eqn:E0.
    + unfold ClimateEntity.rbind in H.
      destruct (ClimateEntity.hvac_modes_of items) as [ e | rest ];
        [ discriminate | ].
      injection H as <-. cbn [In]. rewrite (IH rest eq_refl m). split.
      * intros [ <- | (s & Hin & Hs) ].
        -- exists s0. split; [ now left | exact E0 ].
        -- exists s. split; [ now right | exact Hs ].
      * intros (s & [ E | Hin ] & Hs).
        -- injection E as ->. left. congruence.
        -- right. now exists s.
    + apply Hskip; [ | exact H ].
      intro s. destruct (String.eqb_spec s s0) as [ -> | Hne ];
        [ now right | left; congruence ].
Qed.

Lemma mode_in_spec (m : Climate.HVACMode) (modes : list Climate.HVACMode) :
  ClimateEntity.mode_in m modes = true <-> In m modes.
Proof.
  unfold ClimateEntity.mode_in. rewrite existsb_exists. split.
  - intros (x & Hin & E). apply HVACMode_eqb_eq in E. now subst.
  - intro Hin. exists m. split; [ exact Hin | now apply HVACMode_eqb_eq ].
Qed.

(** What [__init__] computes, step by step, when it returns. *)
Lemma climate_init_inversion entry d a :
  ClimateEntity.__init__ entry d = inr a ->
  exists name items modes commands has_off fan_mode,
    ClimateEntity.data_name entry = Some name
    /\ py_iter (match dict_lookup "operationModes" d with
                | Some v => v
                | None => JList []
                end) = inr items
    /\ ClimateEntity.hvac_modes_of items = inr modes
    /\ commands = match dict_lookup "commands" d with
                  | Some v => v
                  | None => JDict []
                  end
    /\ py_contains (Some "off") commands = inr has_off
    /\ (let raw := match dict_lookup "fanModes" d with
                   | Some v => v
                   | None => JList []
                   end in
        (if truthy raw then ClimateEntity.py_getitem0 raw
         else inr (JStr "auto")) = inr fan_mode
        /\ ClimateEntity.attr_fan_modes a
           = (if truthy raw then Some raw else None)
        /\ ClimateEntity.attr_supported_features a
           = (if truthy raw
              then [ ClimateEntity.TARGET_TEMPERATURE; ClimateEntity.TURN_OFF;
                     ClimateEntity.TURN_ON; ClimateEntity.FAN_MODE ]
              else [ ClimateEntity.TARGET_TEMPERATURE; ClimateEntity.TURN_OFF;
                     ClimateEntity.TURN_ON ]))
    /\ ClimateEntity.attr_hvac_modes a
       = (if has_off && negb (ClimateEntity.mode_in Climate.OFF modes)
          then (modes ++ [ Climate.OFF ])%list else modes)
    /\ ClimateEntity.attr_fan_mode a = fan_mode
    /\ ClimateEntity.attr_hvac_mode a = Climate.OFF
    /\ ClimateEntity.attr_target_temperature a = 24 # 1
    /\ ClimateEntity.attr_controller a = ClimateEntity.data_controller entry.
Proof.
  unfold ClimateEntity.__init__.
  cbn [py_get ClimateEntity.rbind].
  destruct (ClimateEntity.data_name entry) as [ name | ];
    [ | discriminate ].
  cbn [ClimateEntity.rbind].
  destruct (py_iter _) as [ e | items ] eqn:Hitems; [ discriminate | ].
  cbn [ClimateEntity.rbind].
  destruct (ClimateEntity.hvac_modes_of items) as [ e | modes ] eqn:Hmodes;
    [ discriminate | ].
  cbn [ClimateEntity.rbind].
  destruct (py_contains (Some "off") _) as [ e | has_off ] eqn:Hoff;
    [ discriminate | ].
  cbn [ClimateEntity.rbind].
  destruct (if truthy _ then ClimateEntity.py_getitem0 _ else _)
    as [ e | fan_mode ] eqn:Hfan; [ discriminate | ].
  cbn [ClimateEntity.rbind]. intro H. injection H as <-.
  exists name, items, modes,
    (match dict_lookup "commands" d with Some v => v | None => JDict [] end),
    has_off, fan_mode.
  cbn. repeat split; assumption.
Qed.

(** X10: the entity [__init__] builds.  It starts switched off at 24
    degrees.  It offers off whenever the table has an [off] command,
    also when [operationModes] does not name it; every other mode it
    offers is named in [operationModes]; and every mode it offers has
    a key for the lookup, so a request for an offered mode never
    searches the table for [None].  Its first fan is the first of
    [fanModes], or [auto] when there are none, and fan selection is
    supported only in the first case. *)
Theorem climate_init_offers_resolvable_modes entry d a :
  ClimateEntity.__init__ entry d = inr a ->
  ClimateEntity.attr_hvac_mode a = Climate.OFF
  /\ ClimateEntity.attr_target_temperature a = 24 # 1
  /\ ((exists cmds v,
         dict_lookup "commands" d = Some (JDict cmds)
         /\ dict_lookup "off" cmds = Some v) ->
      In Climate.OFF (ClimateEntity.attr_hvac_modes a))
  /\ (forall m,
        In m (ClimateEntity.attr_hvac_modes a) ->
        Climate.mode_dict_get Climate.HVAC_MODES_INV_MAP m <> None
        /\ (m = Climate.OFF
            \/ exists s items,
                 py_iter (match dict_lookup "operationModes" d with
                          | Some v => v
                          | None => JList []
                          end) = inr items
                 /\ In (JStr s) items
                 /\ ClimateEntity.modes_map_get Climate.HVAC_MODES_MAP s
                    = Some m))
  /\ (forall x l,
        dict_lookup "fanModes" d = Some (JList (x :: l)) ->
        ClimateEntity.attr_fan_mode a = x
        /\ In ClimateEntity.FAN_MODE (ClimateEntity.attr_supported_features a))
  /\ (dict_lookup "fanModes" d = None
      \/ dict_lookup "fanModes" d = Some (JList []) ->
      ClimateEntity.attr_fan_mode a = JStr "auto"
      /\ ~ In ClimateEntity.FAN_MODE
             (ClimateEntity.attr_supported_features a)).
Proof.
  intro Hinit.
  destruct (climate_init_inversion _ _ _ Hinit)
    as (name & items & modes & commands & has_off & fan_mode
        & Hname & Hitems & Hmodes & Hcmds & Hoff & (Hfan & Hfans & Hfeat)
        & Hoffered & Hfm & Hmode & Htemp & Hctrl).
  assert (Hsub : forall m, In m (ClimateEntity.attr_hvac_modes a) ->
                   m = Climate.OFF \/ In m modes).
  { intros m. rewrite Hoffered.
    destruct (has_off && negb (ClimateEntity.mode_in Climate.OFF modes));
      [ | now right ].
    rewrite in_app_iff. cbn [In]. intuition. }
  repeat apply conj; try assumption.
  - intros (cmds & v & Hc & Hv). rewrite Hc in Hcmds. subst commands.
    cbn [py_contains] in Hoff. rewrite Hv in Hoff. injection Hoff as <-.
    rewrite Hoffered. cbn [andb].
    destruct (ClimateEntity.mode_in Climate.OFF modes) eqn:E; cbn [negb].
    + now apply mode_in_spec.
    + apply in_app_iff. right. now left.
  - intros m Hin. destruct (Hsub m Hin) as [ -> | Hin' ].
    + split; [ discriminate | now left ].
    + apply (hvac_modes_of_spec _ _ Hmodes) in Hin'.
      destruct Hin' as (s & Hs & Hm). split.
      * now apply (modes_map_never_heat_cool s).
      * right. now exists s, items.
  - intros x l Hf. rewrite Hf in Hfan, Hfeat. cbn in Hfan, Hfeat.
    injection Hfan as <-. rewrite Hfeat. split; [ exact Hfm | ].
    cbn. tauto.
  - intros Hf.
    assert (E : truthy match dict_lookup "fanModes" d with
                       | Some v => v
                       | None => JList []
                       end = false)
      by (destruct Hf as [ -> | -> ]; reflexivity).
    cbv zeta in Hfan, Hfeat. rewrite E in Hfan, Hfeat.
    injection Hfan as <-. rewrite Hfeat. split; [ exact Hfm | ].
    cbn. intros [ H | [ H | [ H | [] ] ] ]; discriminate.
Qed.

(** X11: a table that files its fan-only codes under [fan].  The name is
    accepted in [operationModes], so the entity offers the fan-only
    mode; but the key of that mode is [fan_only], so without such a key
    in [commands] a request for the offered mode finds nothing: it logs
    the mode as missing, transmits nothing, and shows the mode as set. *)
Theorem fan_named_table_is_never_reached entry d a items cmds :
  ClimateEntity.__init__ entry d = inr a ->
  dict_lookup "operationModes" d = Some (JList items) ->
  In (JStr "fan") items ->
  dict_lookup "commands" d = Some (JDict cmds) ->
  dict_lookup "fan_only" cmds = None ->
  In Climate.FAN_ONLY (ClimateEntity.attr_hvac_modes a)
  /\ forall h ctrl m t f,
       Climate.async_set_hvac_mode Climate.FAN_ONLY
         (Climate.mkClimate h d ctrl m t f)
       = mkRes (inr tt) (Climate.mkClimate h d ctrl Climate.FAN_ONLY t f)
           [ Log ERROR "EasyIR: Mode 'fan_only' missing from JSON.";
             WriteHAState ].
Proof.
  intros Hinit Hop Hfan Hcmds Hkey. split.
  - destruct (climate_init_inversion _ _ _ Hinit)
      as (name & items' & modes & commands & has_off & fan_mode
          & _ & Hitems & Hmodes & _ & _ & _ & Hoffered & _).
    rewrite Hop in Hitems. cbn [py_iter] in Hitems. injection Hitems as <-.
    assert (Hin : In Climate.FAN_ONLY modes).
    { apply (hvac_modes_of_spec _ _ Hmodes). exists "fan".
      split; [ exact Hfan | reflexivity ]. }
    rewrite Hoffered.
    destruct (has_off && negb (ClimateEntity.mode_in Climate.OFF modes));
      [ apply in_app_iff; now left | exact Hin ].
  - intros h ctrl m t f.
    rewrite climate_set_hvac_mode_run, climate_send_then_publish.
    assert (E : Climate._async_send_ir
                  (Climate.set_hvac_mode (Climate.mkClimate h d ctrl m t f)
                     Climate.FAN_ONLY)
                = log ERROR "EasyIR: Mode 'fan_only' missing from JSON."
                    (Climate.mkClimate h d ctrl Climate.FAN_ONLY t f)).
    { unfold Climate._async_send_ir. run_step.
      cbn [Climate.set_hvac_mode Climate._attr_hvac_mode
           Climate._device_data Climate.HVACMode_eqb].
      change (Climate.mode_dict_get Climate.HVAC_MODES_INV_MAP
                Climate.FAN_ONLY) with (Some "fan_only").
      run_lookups. reflexivity. }
    rewrite E. reflexivity.
Qed.

(** ** The temperature sensor *)

(** X12: whatever the sensor reports and however [float] reads it, the
    callback returns without raising, transmits nothing and leaves
    mode, target temperature and fan alone.  A missing state,
    [unavailable], [unknown] and a string [float] rejects change
    nothing and publish nothing; a readable value becomes the displayed
    temperature and is published once. *)
Theorem sensor_update_is_harmless
    (PyFloat : Type) (float : string -> option PyFloat)
    (new_state : option string)
    (self : ClimateEntity.ClimateView PyFloat) :
  let r := ClimateEntity._on_temp_sensor_change PyFloat float new_state self in
  let usable :=
    match new_state with
    | Some state =>
        if String.eqb state ClimateEntity.STATE_UNAVAILABLE
           || String.eqb state ClimateEntity.STATE_UNKNOWN
        then None else float state
    | None => None
    end in
  outcome r = inr tt
  /\ ClimateEntity.entity PyFloat (final r) = ClimateEntity.entity PyFloat self
  /\ transmissions (trace r) = []
  /\ match usable with
     | Some x =>
         ClimateEntity._attr_current_temperature PyFloat (final r) = Some x
         /\ trace r = [ WriteHAState ]
     | None => final r = self /\ trace r = []
     end.
Proof.
  cbv zeta. unfold ClimateEntity._on_temp_sensor_change.
  destruct new_state as [ state | ]; [ | repeat split ].
  destruct (String.eqb state ClimateEntity.STATE_UNAVAILABLE
            || String.eqb state ClimateEntity.STATE_UNKNOWN);
    [ repeat split | ].
  destruct (float state) as [ x | ]; repeat split.
Qed.

(** ** The media-player lookup, for every action *)

(** X13: the lookup of an action key in a [commands] mapping.  A truthy
    code under the key is handed to the transmitter as it is, for every
    key; for [on] this means [power] is not consulted.  For a key other
    than [on] that is absent or holds a falsy code, the lookup warns
    with the key's name and sends nothing, whatever else the table
    holds: [power] is retried for [on] only. *)
Theorem media_lookup_by_key
    (self : MediaPlayer.EasyIRMediaPlayer) (cmds : dict) (key : string) :
  py_get (JDict (MediaPlayer._device_data self)) "commands" (JDict [])
    = inr (JDict cmds) ->
  (forall code,
      dict_lookup key cmds = Some code ->
      truthy code = true ->
      MediaPlayer._send_command key self
      = MediaPlayer._send_raw_code code self)
  /\ (key <> "on" ->
      (forall code, dict_lookup key cmds = Some code -> truthy code = false) ->
      MediaPlayer._send_command key self
      = log WARNING ("EasyIR: Command '" ++ key
                     ++ "' not found in device JSON.") self).
Proof.
  intro Hcmds. split.
  - intros code Hcode Htruthy. enter_media_lookup Hcmds.
    run_lookups. rewrite Htruthy. cbn [negb andb].
    run_step. rewrite Htruthy. reflexivity.
  - intros Hkey Hfalsy. enter_media_lookup Hcmds. cbn [py_get].
    assert (Hv : truthy match dict_lookup key cmds with
                        | Some v => v
                        | None => JNull
                        end = false).
    { destruct (dict_lookup key cmds) as [ c | ];
        [ now apply Hfalsy | reflexivity ]. }
    run_step. rewrite Hv.
    destruct (String.eqb_spec key "on") as [ E | _ ]; [ contradiction | ].
    cbn [negb andb]. run_step. rewrite Hv. reflexivity.
Qed.

(** X14: the volume, mute and transport actions never write a field and
    never publish the state, whatever the table holds and however the
    send ends; muting sends the same for [True] and [False]. *)
Theorem media_actions_leave_state_alone
    (self : MediaPlayer.EasyIRMediaPlayer) :
  (forall key,
      final (MediaPlayer._send_command key self) = self
      /\ publications (trace (MediaPlayer._send_command key self)) = 0%nat)
  /\ (final (MediaEntity.async_volume_up self) = self
      /\ publications (trace (MediaEntity.async_volume_up self)) = 0%nat)
  /\ (final (MediaEntity.async_volume_down self) = self
      /\ publications (trace (MediaEntity.async_volume_down self)) = 0%nat)
  /\ (forall mute,
      final (MediaEntity.async_mute_volume mute self) = self
      /\ publications (trace (MediaEntity.async_mute_volume mute self))
         = 0%nat
      /\ MediaEntity.async_mute_volume mute self
         = MediaEntity.async_mute_volume (negb mute) self)
  /\ (final (MediaEntity.async_media_play self) = self
      /\ publications (trace (MediaEntity.async_media_play self)) = 0%nat)
  /\ (final (MediaEntity.async_media_pause self) = self
      /\ publications (trace (MediaEntity.async_media_pause self)) = 0%nat)
  /\ (final (MediaEntity.async_media_stop self) = self
      /\ publications (trace (MediaEntity.async_media_stop self)) = 0%nat).
Proof.
  assert (H : forall key,
             final (MediaPlayer._send_command key self) = self
             /\ publications (trace (MediaPlayer._send_command key self))
                = 0%nat).
  { intro key. split; [ apply media_send_command_preserves | ].
    apply (send_shaped_unpublished (MediaPlayer._controller self)).
    apply media_send_command_shaped. }
  refine (conj H (conj (H _) (conj (H _)
            (conj _ (conj (H _) (conj (H _) (H _))))))).
  intro mute. destruct (H "mute") as [ Hf Hp ].
  repeat apply conj; [ exact Hf | exact Hp | reflexivity ].
Qed.

(** ** Source selection *)

(** X15: selecting a source that is in the table sends its code with no
    truthiness test.  The run is the send followed, unless the send
    raised, by the source field and one publication; a string code is
    transmitted normalised even when it is empty (the payload is then
    the bare prefix), and a null code raises [TypeError] with the
    entity unchanged. *)
Theorem select_source_sends_without_gate
    (self : MediaPlayer.EasyIRMediaPlayer) (cmds srcs : dict)
    (source : string) (code : json) :
  dict_lookup "commands" (MediaPlayer._device_data self) = Some (JDict cmds) ->
  dict_lookup "sources" cmds = Some (JDict srcs) ->
  dict_lookup source srcs = Some code ->
  MediaPlayer.async_select_source source self
  = match outcome (MediaPlayer._send_raw_code code self) with
    | inl e =>
        mkRes (inl e) self (trace (MediaPlayer._send_raw_code code self))
    | inr _ =>
        mkRes (inr tt) (MediaPlayer.set_source self (Some source))
          (trace (MediaPlayer._send_raw_code code self) ++ [ WriteHAState ])
    end
  /\ (forall s,
        code = JStr s ->
        transmissions (trace (MediaPlayer.async_select_source source self))
        = [ {| entity_id := MediaPlayer._controller self;
               command := [ final_command (JStr s) ] |} ])
  /\ (code = JNull ->
      MediaPlayer.async_select_source source self = raise TypeError self).
Proof.
  intros Hcmds Hsrcs Hcode.
  assert (E : MediaPlayer.async_select_source source self
              = match outcome (MediaPlayer._send_raw_code code self) with
                | inl e =>
                    mkRes (inl e) self
                      (trace (MediaPlayer._send_raw_code code self))
                | inr _ =>
                    mkRes (inr tt) (MediaPlayer.set_source self (Some source))
                      (trace (MediaPlayer._send_raw_code code self)
                       ++ [ WriteHAState ])
                end).
  { unfold MediaPlayer.async_select_source. run_lookups.
    apply media_send_then_set_source. }
  repeat apply conj.
  - exact E.
  - intros s ->. rewrite E.
    pose proof (media_send_raw_code_list [ JStr s ] self) as Hl.
    rewrite <- media_send_raw_code_str in Hl.
    destruct (outcome (MediaPlayer._send_raw_code (JStr s) self));
      cbn [trace]; [ exact Hl | ].
    rewrite transmissions_app, Hl. reflexivity.
  - intros ->. rewrite E. reflexivity.
Qed.

(** X16: selecting a source that is not in the [sources] mapping (or
    when the table has none) does nothing at all: no call, no log
    record, no change of the source shown, no publication. *)
Theorem select_unknown_source_does_nothing
    (self : MediaPlayer.EasyIRMediaPlayer) (cmds srcs : dict)
    (source : string) :
  py_get (JDict (MediaPlayer._device_data self)) "commands" (JDict [])
    = inr (JDict cmds) ->
  py_get (JDict cmds) "sources" (JDict []) = inr (JDict srcs) ->
  dict_lookup source srcs = None ->
  MediaPlayer.async_select_source source self = ret tt self.
Proof.
  intros Hcmds Hsrcs Hmiss.
  unfold MediaPlayer.async_select_source. run_step.
  rewrite Hcmds. run_step. rewrite Hsrcs. run_step.
  cbn [py_contains]. rewrite Hmiss. run_step. reflexivity.
Qed.

(** ** Construction of the media player *)

Lemma insert_sorted_perm (x : string) (l : list string) :
  Permutation (x :: l) (MediaEntity.insert_sorted x l).
Proof.
  induction l as [ | y l IH ]; cbn [MediaEntity.insert_sorted].
  - apply Permutation_refl.
  - destruct (String.leb x y); [ apply Permutation_refl | ].
    eapply perm_trans; [ apply perm_swap | ]. now apply perm_skip.
Qed.

Lemma sorted_perm (l : list string) : Permutation l (MediaEntity.sorted l).
Proof.
  induction l as [ | x l IH ]; cbn [MediaEntity.sorted].
  - apply perm_nil.
  - eapply perm_trans; [ apply perm_skip, IH | apply insert_sorted_perm ].
Qed.

Lemma insert_sorted_head (x y : string) (l : list string) :
  String.leb y x = true ->
  HdRel (fun a b => String.leb a b = true) y l ->
  HdRel (fun a b => String.leb a b = true) y (MediaEntity.insert_sorted x l).
Proof.
  intros Hyx Hhd. destruct l as [ | z l ]; cbn [MediaEntity.insert_sorted].
  - now constructor.
  - destruct (String.leb x z); constructor; [ exact Hyx | ].
    now inversion Hhd.
Qed.

Lemma insert_sorted_sorted (x : string) (l : list string) :
  Sorted (fun a b => String.leb a b = true) l ->
  Sorted (fun a b => String.leb a b = true) (MediaEntity.insert_sorted x l).
Proof.
  induction 1 as [ | y l Hs IH Hhd ]; cbn [MediaEntity.insert_sorted].
  - repeat constructor.
  - destruct (String.leb x y) eqn:E.
    + constructor; [ now constructor | now constructor ].
    + constructor; [ exact IH | ].
      apply insert_sorted_head; [ | exact Hhd ].
      destruct (String.leb_total x y) as [ H | H ]; congruence.
Qed.

Lemma sorted_is_sorted (l : list string) :
  Sorted (fun a b => String.leb a b = true) (MediaEntity.sorted l).
Proof.
  induction l as [ | x l IH ]; cbn [MediaEntity.sorted].
  - constructor.
  - now apply insert_sorted_sorted.
Qed.

Lemma dict_lookup_of_key (key : string) (d : dict) :
  In key (map fst d) -> exists v, dict_lookup key d = Some v.
Proof.
  induction d as [ | [ k v ] d IH ]; [ intros [] | ].
  cbn [map fst In dict_lookup]. intros [ -> | Hin ].
  - rewrite String.eqb_refl. now exists v.
  - destruct (String.eqb key k); [ now exists v | now apply IH ].
Qed.

(** What [__init__] computes, step by step, when it returns. *)
Lemma media_init_inversion entry d a :
  MediaEntity.__init__ entry d = inr a ->
  let commands := match dict_lookup "commands" d with
                  | Some v => v
                  | None => JDict []
                  end in
  exists name has_volume has_sources has_play,
    ClimateEntity.data_name entry = Some name
    /\ MediaEntity.both_in "volumeDown" "volumeUp" commands = inr has_volume
    /\ py_contains (Some "sources") commands = inr has_sources
    /\ MediaEntity.both_in "play" "pause" commands = inr has_play
    /\ (if has_sources
        then exists sources keys,
               py_getitem commands (Some "sources") = inr sources
               /\ py_keys sources = inr keys
               /\ MediaEntity.attr_source_list a
                  = Some (MediaEntity.sorted keys)
        else MediaEntity.attr_source_list a = None)
    /\ MediaEntity.attr_supported_features a
       = ([ MediaEntity.TURN_OFF; MediaEntity.TURN_ON ]
          ++ (if has_volume
              then [ MediaEntity.VOLUME_STEP; MediaEntity.VOLUME_MUTE ]
              else [])
          ++ (if has_sources then [ MediaEntity.SELECT_SOURCE ] else [])
          ++ (if has_play
              then [ MediaEntity.PLAY; MediaEntity.PAUSE; MediaEntity.STOP ]
              else []))%list
    /\ MediaEntity.attr_state a = MediaPlayer.STATE_OFF
    /\ MediaEntity.attr_source a = None
    /\ MediaEntity.attr_controller a = ClimateEntity.data_controller entry.
Proof.
  unfold MediaEntity.__init__. cbv zeta.
  cbn [py_get ClimateEntity.rbind].
  destruct (ClimateEntity.data_name entry) as [ name | ];
    [ | discriminate ].
  cbn [ClimateEntity.rbind].
  destruct (MediaEntity.both_in "volumeDown" "volumeUp" _)
    as [ e | has_volume ] eqn:Hvol; [ discriminate | ].
  cbn [ClimateEntity.rbind].
  destruct (py_contains (Some "sources") _) as [ e | has_sources ] eqn:Hsrc;
    [ discriminate | ].
  cbn [ClimateEntity.rbind].
  destruct has_sources.
  - destruct (py_getitem _ (Some "sources")) as [ e | sources ] eqn:Hget;
      [ discriminate | ].
    cbn [ClimateEntity.rbind].
    destruct (py_keys sources) as [ e | keys ] eqn:Hkeys; [ discriminate | ].
    cbn [ClimateEntity.rbind fst snd].
    destruct (MediaEntity.both_in "play" "pause" _)
      as [ e | has_play ] eqn:Hplay; [ discriminate | ].
    cbn [ClimateEntity.rbind]. intro H. injection H as <-.
    exists name, has_volume, true, has_play.
    cbn [MediaEntity.attr_source_list MediaEntity.attr_supported_features
         MediaEntity.attr_state MediaEntity.attr_source
         MediaEntity.attr_controller].
    repeat apply conj; try reflexivity.
    + now exists sources, keys.
    + destruct has_volume, has_play; reflexivity.
  - cbn [ClimateEntity.rbind fst snd].
    destruct (MediaEntity.both_in "play" "pause" _)
      as [ e | has_play ] eqn:Hplay; [ discriminate | ].
    cbn [ClimateEntity.rbind]. intro H. injection H as <-.
    exists name, has_volume, false, has_play.
    cbn [MediaEntity.attr_source_list MediaEntity.attr_supported_features
         MediaEntity.attr_state MediaEntity.attr_source
         MediaEntity.attr_controller].
    repeat apply conj; try reflexivity.
    destruct has_volume, has_play; reflexivity.
Qed.

Lemma select_known_source_run
    (self : MediaPlayer.EasyIRMediaPlayer) (cmds srcs : dict)
    (source : string) (code : json) :
  dict_lookup "commands" (MediaPlayer._device_data self) = Some (JDict cmds) ->
  dict_lookup "sources" cmds = Some (JDict srcs) ->
  dict_lookup source srcs = Some code ->
  MediaPlayer.async_select_source source self
  = match outcome (MediaPlayer._send_raw_code code self) with
    | inl e =>
        mkRes (inl e) self (trace (MediaPlayer._send_raw_code code self))
    | inr _ =>
        mkRes (inr tt) (MediaPlayer.set_source self (Some source))
          (trace (MediaPlayer._send_raw_code code self) ++ [ WriteHAState ])
    end.
Proof.
  intros Hcmds Hsrcs Hcode.
  unfold MediaPlayer.async_select_source. run_lookups.
  apply media_send_then_set_source.
Qed.

(** X17: the source list [__init__] offers.  When there is one, the
    table has a [sources] mapping, source selection is supported, and
    the list holds exactly the names of that mapping, each as often as
    there, in ascending order.  Every source of the list can be
    selected: it has a code in the table, and selecting it runs the
    send of that code. *)
Theorem source_list_is_sorted_and_selectable entry d a l :
  MediaEntity.__init__ entry d = inr a ->
  MediaEntity.attr_source_list a = Some l ->
  exists cmds srcs,
    dict_lookup "commands" d = Some (JDict cmds)
    /\ dict_lookup "sources" cmds = Some (JDict srcs)
    /\ Permutation (map fst srcs) l
    /\ Sorted (fun a b => String.leb a b = true) l
    /\ MediaEntity.supports (MediaEntity.attr_supported_features a)
         MediaEntity.SELECT_SOURCE = true
    /\ forall source,
         In source l ->
         exists code,
           dict_lookup source srcs = Some code
           /\ forall h ctrl st src,
                let self := MediaPlayer.mkMediaPlayer h d ctrl st src in
                MediaPlayer.async_select_source source self
                = match outcome (MediaPlayer._send_raw_code code self) with
                  | inl e =>
                      mkRes (inl e) self
                        (trace (MediaPlayer._send_raw_code code self))
                  | inr _ =>
                      mkRes (inr tt)
                        (MediaPlayer.set_source self (Some source))
                        (trace (MediaPlayer._send_raw_code code self)
                         ++ [ WriteHAState ])
                  end.
Proof.
  intros Hinit Hlist.
  destruct (media_init_inversion _ _ _ Hinit)
    as (name & has_volume & has_sources & has_play
        & _ & _ & _ & _ & Hsrc & Hfeat & _).
  destruct has_sources; [ | congruence ].
  destruct Hsrc as (sources & keys & Hget & Hkeys & Hl).
  rewrite Hlist in Hl. injection Hl as ->.
  destruct (dict_lookup "commands" d) as [ commands | ] eqn:Hcmds;
    [ | discriminate ].
  destruct commands as [ | b | q | s | c | cmds ]; try discriminate.
  cbn [py_getitem] in Hget.
  destruct (dict_lookup "sources" cmds) as [ v | ] eqn:Hsources;
    [ | discriminate ].
  injection Hget as ->.
  destruct sources as [ | b | q | s | c | srcs ]; try discriminate.
  injection Hkeys as <-.
  exists cmds, srcs. repeat apply conj; try reflexivity; try assumption.
  - apply sorted_perm.
  - apply sorted_is_sorted.
  - rewrite Hfeat. destruct has_volume, has_play; reflexivity.
  - intros source Hin.
    apply (Permutation_in _ (Permutation_sym (sorted_perm _))) in Hin.
    destruct (dict_lookup_of_key _ _ Hin) as (code & Hcode).
    exists code. split; [ exact Hcode | ].
    intros h ctrl st src. cbv zeta.
    now apply (select_known_source_run _ cmds srcs).
Qed.

Lemma both_in_dict (a b : string) (cmds : dict) :
  MediaEntity.both_in a b (JDict cmds) = inr true ->
  exists va vb, dict_lookup a cmds = Some va /\ dict_lookup b cmds = Some vb.
Proof.
  unfold MediaEntity.both_in. cbn [py_contains ClimateEntity.rbind].
  destruct (dict_lookup a cmds) as [ va | ]; [ | discriminate ].
  destruct (dict_lookup b cmds) as [ vb | ]; [ | discriminate ].
  intros _. now exists va, vb.
Qed.

(** X18: the features [__init__] advertises.  Turning on and off is
    always supported, whatever the table holds.  Volume steps are
    supported only when the table has both volume keys, and play and
    pause only when it has both of theirs; mute comes with the volume
    keys and stop with play and pause, whether or not the table has a
    [mute] or a [stop] code.  Source selection is supported exactly
    when there is a source list.  The player starts off, with no
    source. *)
Theorem media_init_features entry d a :
  MediaEntity.__init__ entry d = inr a ->
  let supported :=
    MediaEntity.supports (MediaEntity.attr_supported_features a) in
  supported MediaEntity.TURN_ON = true
  /\ supported MediaEntity.TURN_OFF = true
  /\ supported MediaEntity.VOLUME_MUTE = supported MediaEntity.VOLUME_STEP
  /\ supported MediaEntity.PAUSE = supported MediaEntity.PLAY
  /\ supported MediaEntity.STOP = supported MediaEntity.PLAY
  /\ (forall cmds,
        dict_lookup "commands" d = Some (JDict cmds) ->
        supported MediaEntity.VOLUME_STEP = true ->
        exists up down,
          dict_lookup "volumeUp" cmds = Some up
          /\ dict_lookup "volumeDown" cmds = Some down)
  /\ (forall cmds,
        dict_lookup "commands" d = Some (JDict cmds) ->
        supported MediaEntity.PLAY = true ->
        exists play pause,
          dict_lookup "play" cmds = Some play
          /\ dict_lookup "pause" cmds = Some pause)
  /\ (supported MediaEntity.SELECT_SOURCE = true
      <-> MediaEntity.attr_source_list a <> None)
  /\ MediaEntity.attr_state a = MediaPlayer.STATE_OFF
  /\ MediaEntity.attr_source a = None.
Proof.
  intro Hinit. cbv zeta.
  destruct (media_init_inversion _ _ _ Hinit)
    as (name & has_volume & has_sources & has_play
        & _ & Hvol & _ & Hplay & Hsrc & Hfeat & Hstate & Hsource & _).
  rewrite Hfeat.
  repeat apply conj; try assumption;
    try (destruct has_volume, has_sources, has_play; reflexivity).
  - intros cmds Hcmds Hsup. rewrite Hcmds in Hvol.
    assert (has_volume = true)
      by (destruct has_volume, has_sources, has_play;
          (reflexivity || discriminate)).
    subst has_volume.
    destruct (both_in_dict _ _ _ Hvol) as (down & up & Hd & Hu).
    now exists up, down.
  - intros cmds Hcmds Hsup. rewrite Hcmds in Hplay.
    assert (has_play = true)
      by (destruct has_volume, has_sources, has_play;
          (reflexivity || discriminate)).
    subst has_play.
    destruct (both_in_dict _ _ _ Hplay) as (play & pause & Hp & Hq).
    now exists play, pause.
  - intros Hsup. destruct has_sources.
    + destruct Hsrc as (sources & keys & _ & _ & ->). discriminate.
    + destruct has_volume, has_play; discriminate Hsup.
  - intros Hl. destruct has_sources.
    + destruct has_volume, has_play; reflexivity.
    + contradiction.
Qed.

(** ** The further properties on example devices *)

Import Devices.

(** 24.5 degrees sends what 24 degrees sends. *)
Lemma temperature_is_truncated_witness :
  py_int (49 # 2) = py_int (24 # 1)
  /\ transmissions
       (trace (Climate._async_send_ir
                 (Climate.set_target_temperature cool_auto_request (49 # 2))))
     = [ {| entity_id := controller; command := [ JStr "b64:CCDD" ] |} ].
Proof.
  assert (H : py_int (49 # 2) = py_int (24 # 1)) by reflexivity.
  split; [ exact H | ].
  destruct (temperature_is_truncated cool_auto_request _ _ H) as [ _ -> ].
  reflexivity.
Defined.

(** Cool, auto, 30 degrees on a table that only has 24. *)
Lemma missing_temperature_reported_witness :
  dict_lookup "30" cool_auto_24 = None
  /\ trace (Climate._async_send_ir
              (Climate.set_target_temperature cool_auto_request (30 # 1)))
     = [ Log ERROR "EasyIR: Temp '30' missing from JSON." ].
Proof.
  split; [ reflexivity | ].
  rewrite (missing_temperature_reported
             (Climate.set_target_temperature cool_auto_request (30 # 1))
             cool_commands cool_fans cool_auto_24 "cool");
    [ reflexivity | discriminate | reflexivity .. ].
Defined.

Lemma table_without_commands_witness :
  dict_lookup "commands" (Climate._device_data (no_commands_request Climate.OFF))
    = None
  /\ outcome (Climate._async_send_ir (no_commands_request Climate.OFF))
     = inl KeyError
  /\ trace (Climate._async_send_ir (no_commands_request Climate.COOL))
     = [ Log ERROR "EasyIR: Mode 'cool' missing from JSON." ].
Proof.
  split; [ reflexivity | ].
  rewrite (table_without_commands (no_commands_request Climate.OFF) eq_refl).
  rewrite (table_without_commands (no_commands_request Climate.COOL) eq_refl).
  split; reflexivity.
Defined.

Lemma inverse_mode_map_round_trip_witness :
  ClimateEntity.modes_map_get Climate.HVAC_MODES_MAP "fan"
    = Some Climate.FAN_ONLY
  /\ Climate.mode_dict_get Climate.HVAC_MODES_INV_MAP Climate.FAN_ONLY
     = Some "fan_only"
  /\ In ("dry", Climate.DRY) Climate.HVAC_MODES_MAP.
Proof.
  destruct inverse_mode_map_round_trip
    as (Hsound & _ & _ & Hinv & Hround & _).
  assert (Hfan : ClimateEntity.modes_map_get Climate.HVAC_MODES_MAP "fan"
                 = Some Climate.FAN_ONLY) by reflexivity.
  refine (conj Hfan (conj (Hround "fan" Climate.FAN_ONLY Hfan) _)).
  apply Hsound. rewrite <- Hinv. reflexivity.
Defined.

Lemma climate_init_offers_resolvable_modes_witness :
  exists a,
    ClimateEntity.__init__ living_room fan_table = inr a
    /\ ClimateEntity.attr_hvac_modes a
       = [ Climate.COOL; Climate.FAN_ONLY; Climate.OFF ]
    /\ In Climate.OFF (ClimateEntity.attr_hvac_modes a)
    /\ ClimateEntity.attr_fan_mode a = JStr "auto".
Proof.
  eexists. split; [ reflexivity | ].
  split; [ reflexivity | ].
  match goal with
  | |- In _ (ClimateEntity.attr_hvac_modes ?a) /\ _ =>
      destruct (climate_init_offers_resolvable_modes living_room fan_table a
                  eq_refl) as (_ & _ & Hoff & _ & Hfan & _)
  end.
  split.
  - apply Hoff. exists fan_commands, (JStr "AABB"). split; reflexivity.
  - apply (Hfan (JStr "auto") [ JStr "low" ]). reflexivity.
Defined.

Lemma fan_named_table_is_never_reached_witness :
  exists a,
    ClimateEntity.__init__ living_room fan_table = inr a
    /\ dict_lookup "fan" fan_commands <> None
    /\ In Climate.FAN_ONLY (ClimateEntity.attr_hvac_modes a)
    /\ transmissions
         (trace (Climate.async_set_hvac_mode Climate.FAN_ONLY
                   (Climate.mkClimate host fan_table controller
                      Climate.OFF (24 # 1) "auto")))
       = [].
Proof.
  eexists. split; [ reflexivity | ].
  split; [ discriminate | ].
  match goal with
  | |- In _ (ClimateEntity.attr_hvac_modes ?a) /\ _ =>
      destruct (fan_named_table_is_never_reached living_room fan_table a
                  [ JStr "cool"; JStr "fan" ] fan_commands
                  eq_refl eq_refl (or_intror (or_introl eq_refl))
                  eq_refl eq_refl) as (Hoffered & Hrun)
  end.
  split; [ exact Hoffered | ].
  rewrite Hrun. reflexivity.
Defined.

(** The television: volume up is sent, mute is not in the table. *)
Lemma media_lookup_by_key_witness :
  dict_lookup "mute" tv_commands = None
  /\ MediaPlayer._send_command "volumeUp" tv
     = MediaPlayer._send_raw_code (JStr "VVUU") tv
  /\ trace (MediaPlayer._send_command "mute" tv)
     = [ Log WARNING "EasyIR: Command 'mute' not found in device JSON." ].
Proof.
  split; [ reflexivity | ].
  destruct (media_lookup_by_key tv tv_commands "volumeUp" eq_refl)
    as [ Hhit _ ].
  destruct (media_lookup_by_key tv tv_commands "mute" eq_refl)
    as [ _ Hmiss ].
  split.
  - apply Hhit; reflexivity.
  - rewrite Hmiss; [ reflexivity | discriminate | discriminate ].
Defined.

(** The source with the empty code is transmitted as the bare prefix. *)
Lemma select_source_sends_without_gate_witness :
  dict_lookup "HDMI2" tv_sources = Some (JStr EmptyString)
  /\ transmissions (trace (MediaPlayer.async_select_source "HDMI2" tv))
     = [ {| entity_id := controller; command := [ JStr "b64:" ] |} ]
  /\ MediaPlayer._attr_source
       (final (MediaPlayer.async_select_source "HDMI2" tv))
     = Some "HDMI2".
Proof.
  split; [ reflexivity | ].
  destruct (select_source_sends_without_gate tv tv_commands tv_sources
              "HDMI2" (JStr EmptyString) eq_refl eq_refl eq_refl)
    as (Hrun & Hstr & _).
  split.
  - rewrite (Hstr EmptyString eq_refl). reflexivity.
  - rewrite Hrun. reflexivity.
Defined.

Lemma select_unknown_source_does_nothing_witness :
  dict_lookup "HDMI3" tv_sources = None
  /\ MediaPlayer.async_select_source "HDMI3" tv = mkRes (inr tt) tv [].
Proof.
  split; [ reflexivity | ].
  rewrite (select_unknown_source_does_nothing tv tv_commands tv_sources
             "HDMI3" eq_refl eq_refl eq_refl).
  reflexivity.
Defined.

Lemma source_list_is_sorted_and_selectable_witness :
  exists a,
    MediaEntity.__init__ living_room tv_table = inr a
    /\ MediaEntity.attr_source_list a = Some [ "AV"; "HDMI1"; "HDMI2" ]
    /\ Sorted (fun a b => String.leb a b = true) [ "AV"; "HDMI1"; "HDMI2" ].
Proof.
  eexists. split; [ reflexivity | ]. split; [ reflexivity | ].
  match goal with
  | |- Sorted _ ?l =>
      destruct (source_list_is_sorted_and_selectable living_room tv_table _ l
                  eq_refl eq_refl) as (cmds & srcs & _ & _ & _ & Hs & _)
  end.
  exact Hs.
Defined.

(** The television advertises mute although its table has no such key. *)
Lemma media_init_features_witness :
  exists a,
    MediaEntity.__init__ living_room tv_table = inr a
    /\ dict_lookup "mute" tv_commands = None
    /\ MediaEntity.supports (MediaEntity.attr_supported_features a)
         MediaEntity.VOLUME_MUTE = true
    /\ MediaEntity.supports (MediaEntity.attr_supported_features a)
         MediaEntity.TURN_OFF = true.
Proof.
  eexists. split; [ reflexivity | ]. split; [ reflexivity | ].
  match goal with
  | |- MediaEntity.supports (MediaEntity.attr_supported_features ?a) _ = _
       /\ _ =>
      destruct (media_init_features living_room tv_table a eq_refl)
        as (_ & Hoff & Hmute & _)
  end.
  split; [ rewrite Hmute; reflexivity | exact Hoff ].
Defined.
